(** * olympic_data: the aggregations behind the three linked charts

    A shallow embedding of [olympic_data.py]: the table of athlete records, the
    pandas operations the program applies to it (boolean masks, [unique],
    [groupby], [idxmax]), the aggregator [calculate_team_stats] and the three
    callbacks [update_map], [update_line_chart] and [update_sunburst].

    Conventions.
    - A data frame is the list of its rows, in row order.  The columns the
      program reads ([year], [season], [sport], [team], [sex]) hold a value in
      every row of the data set; [medal] is the one column with missing cells
      (NaN), hence an [option].
    - Counts are natural numbers.  [female_percentage] is a float64 column in
      pandas; the model keeps the exact quotient as a rational, and [None]
      where the float division has no finite value (a zero denominator).
    - A figure is the record of the data handed to the plotting library; the
      rendering itself is outside the program, and the calls into the library
      are taken to succeed.
    - A Python exception is a value [Raise e] of the [result] type.
    - The callbacks are given twice: as functions of the table, and as
      programs on a store of frames, where the frames they create and the one
      write they do are explicit.  The second form is shown to compute the
      first. *)

From Stdlib Require Import List String Ascii ZArith QArith Bool Arith Lia.
From Stdlib Require Import Permutation Sorted Orders OrdersEx RelationClasses.
From Stdlib Require Import DecimalString DecimalZ DecimalPos.
Import ListNotations.

Close Scope Q_scope.
Open Scope string_scope.
Open Scope list_scope.

(** ** Exceptions *)

Inductive exn : Type :=
| ValueError
| KeyError
| IndexError.

Inductive result (A : Type) : Type :=
| Ok (a : A)
| Raise (e : exn).

Arguments Ok {A} a.
Arguments Raise {A} e.

Definition bind {A B : Type} (m : result A) (k : A -> result B) : result B :=
  match m with
  | Ok a => k a
  | Raise e => Raise e
  end.

Notation "x <- m ;; k" := (bind m (fun x => k))
  (at level 61, m at next level, right associativity).

(** ** The source table *)

Record AthleteRecord : Type := mkAthlete {
  year : Z;
  season : string;
  sport : string;
  team : string;
  sex : string;
  medal : option string
}.

Definition DataFrame := list AthleteRecord.

(** ** Orders on group keys

    [groupby] sorts the group keys; a key type comes with a three-way
    comparison. *)

Class KeyOrder (K : Type) : Type := {
  cmp : K -> K -> comparison
}.

Class KeyOrderLaws (K : Type) `{KeyOrder K} : Prop := {
  cmp_eq : forall a b, cmp a b = Eq <-> a = b;
  cmp_antisym : forall a b, cmp b a = CompOpp (cmp a b);
  cmp_trans : forall a b c, cmp a b = Lt -> cmp b c = Lt -> cmp a c = Lt
}.

Definition klt {K} `{KeyOrder K} (a b : K) : Prop := cmp a b = Lt.

#[export] Instance string_order : KeyOrder string :=
  {| cmp := String_as_OT.compare |}.

#[export] Instance Z_order : KeyOrder Z :=
  {| cmp := Z.compare |}.

(** Tuples of keys are ordered lexicographically. *)
Definition lex_cmp {A B} `{KeyOrder A} `{KeyOrder B} (p q : A * B) : comparison :=
  match cmp (fst p) (fst q) with
  | Eq => cmp (snd p) (snd q)
  | c => c
  end.

#[export] Instance pair_order {A B} `{KeyOrder A} `{KeyOrder B} : KeyOrder (A * B) :=
  {| cmp := lex_cmp |}.


(** ** pandas primitives

    Each definition is named after the pandas operation it stands for and
    works on a column (a list of cells) or on a frame (a list of rows). *)

(** [df['c']]: the column [c] of a frame. *)
Definition column {R A : Type} (c : R -> A) (df : list R) : list A := map c df.

(** [s == v]: the element-wise comparison of a column with a scalar. *)
Definition series_eq {A : Type} (eqb : A -> A -> bool) (s : list A) (v : A)
  : list bool :=
  map (fun x => eqb x v) s.

(** [m1 & m2]: the element-wise conjunction of two boolean columns. *)
Fixpoint mask_and (m1 m2 : list bool) : list bool :=
  match m1, m2 with
  | a :: m1', b :: m2' => (a && b) :: mask_and m1' m2'
  | _, _ => []
  end.

(** [df[mask]]: the rows whose mask cell is [True], in row order. *)
Fixpoint getitem {R : Type} (df : list R) (mask : list bool) : list R :=
  match df, mask with
  | r :: df', b :: mask' => if b then r :: getitem df' mask' else getitem df' mask'
  | _, _ => []
  end.

(** [s.count()]: the number of cells of a column without missing cells. *)
Definition count {A : Type} (s : list A) : nat := List.length s.

(** [m.sum()] on a boolean column: the number of [True] cells. *)
Fixpoint sum_bool (m : list bool) : nat :=
  match m with
  | [] => 0
  | b :: m' => (if b then 1 else 0) + sum_bool m'
  end.

(** [s.unique()]: the distinct values of a column in order of first
    appearance. *)
Fixpoint unique_from {A : Type} (eqb : A -> A -> bool) (seen : list A) (s : list A)
  : list A :=
  match s with
  | [] => []
  | x :: s' =>
      if existsb (eqb x) seen then unique_from eqb seen s'
      else x :: unique_from eqb (x :: seen) s'
  end.

Definition unique {A : Type} (eqb : A -> A -> bool) (s : list A) : list A :=
  unique_from eqb [] s.

(** Python truthiness of an optional string ([None] and [''] are false):
    [if v: then_ else: else_]. *)
Definition if_str {A : Type} (v : option string) (then_ : string -> A) (else_ : A)
  : A :=
  match v with
  | Some s => if (s =? "")%string then else_ else then_ s
  | None => else_
  end.

(** [a / b] on two integer cells: a float, with no finite value when the
    denominator is zero (pandas yields NaN or an infinity, and does not
    raise). *)
Definition true_div (a b : nat) : option Q :=
  match b with
  | O => None
  | S _ => Some (inject_Z (Z.of_nat a) / inject_Z (Z.of_nat b))%Q
  end.

(** [x * 100] on a float cell. *)
Definition times100 (x : option Q) : option Q :=
  option_map (fun q => (q * 100)%Q) x.

(** *** groupby

    [df.groupby(keys)] splits the rows by key: the groups come in ascending
    key order, the rows of a group keep their row order, and a row whose key
    has a missing cell belongs to no group.  The groups are built by inserting
    the rows one after the other into a list kept sorted by key. *)

Section GroupBy.
Context {R K : Type} `{KeyOrder K}.

Definition keqb (a b : K) : bool :=
  match cmp a b with
  | Eq => true
  | _ => false
  end.

Fixpoint insert_group (k : K) (r : R) (gs : list (K * list R))
  : list (K * list R) :=
  match gs with
  | [] => [(k, [r])]
  | (k', rs) :: gs' =>
      match cmp k k' with
      | Lt => (k, [r]) :: gs
      | Eq => (k', rs ++ [r]) :: gs'
      | Gt => (k', rs) :: insert_group k r gs'
      end
  end.

Definition groupby_step (key : R -> option K) (gs : list (K * list R)) (r : R)
  : list (K * list R) :=
  match key r with
  | Some k => insert_group k r gs
  | None => gs
  end.

Definition groupby (key : R -> option K) (rows : list R) : list (K * list R) :=
  fold_left (groupby_step key) rows [].

(** The rows of the group of key [k], empty when there is none. *)
Definition group_of (k : K) (gs : list (K * list R)) : list R :=
  match find (fun g => keqb k (fst g)) gs with
  | Some g => snd g
  | None => []
  end.

(** Does a row carry the key [k]? *)
Definition has_key (key : R -> option K) (k : K) (r : R) : bool :=
  match key r with
  | Some k' => keqb k k'
  | None => false
  end.

Definition keyed (key : R -> option K) (r : R) : bool :=
  match key r with
  | Some _ => true
  | None => false
  end.
(** What holds of the groups once the rows [pre] have been inserted. *)
Definition groups_of (key : R -> option K) (pre : list R) (gs : list (K * list R)) : Prop :=
  StronglySorted klt (map fst gs)
  /\ (forall g, In g gs -> snd g <> [])
  /\ (forall k, group_of k gs = filter (has_key key k) pre).

(** The groups partition the rows that carry a key. *)
Definition rows_in (gs : list (K * list R)) : nat :=
  list_sum (map (fun g => List.length (snd g)) gs).

End GroupBy.

(** *** Other library operations *)

(** Python's [sorted] on integers. *)
Fixpoint insert_sorted (x : Z) (l : list Z) : list Z :=
  match l with
  | [] => [x]
  | y :: l' => if (x <=? y)%Z then x :: l else y :: insert_sorted x l'
  end.

Definition sorted (l : list Z) : list Z := fold_right insert_sorted [] l.

(** Python's [min] and [max]: a [ValueError] on an empty sequence. *)
Definition py_min (l : list Z) : result Z :=
  match l with
  | [] => Raise ValueError
  | x :: l' => Ok (fold_left Z.min l' x)
  end.

Definition py_max (l : list Z) : result Z :=
  match l with
  | [] => Raise ValueError
  | x :: l' => Ok (fold_left Z.max l' x)
  end.

(** [str(n)] on an integer: its decimal writing. *)
Definition str (n : Z) : string := NilZero.string_of_int (Z.to_int n).

(** A Python dict: the keys in insertion order; setting a key that is
    present replaces its value in place. *)
Fixpoint dict_set {V : Type} (d : list (string * V)) (k : string) (v : V)
  : list (string * V) :=
  match d with
  | [] => [(k, v)]
  | (k', v') :: d' =>
      if (k =? k')%string then (k', v) :: d' else (k', v') :: dict_set d' k v
  end.

(** [k in d]. *)
Definition dict_in {V : Type} (k : string) (d : list (string * V)) : bool :=
  existsb (fun e => (k =? fst e)%string) d.

(** [d[k]]: a [KeyError] when the key is absent. *)
Definition dict_get {V : Type} (d : list (string * V)) (k : string) : result V :=
  match find (fun e => (k =? fst e)%string) d with
  | Some e => Ok (snd e)
  | None => Raise KeyError
  end.

(** [l[0]]: an [IndexError] on the empty list. *)
Definition index0 {A : Type} (l : list A) : result A :=
  match l with
  | [] => Raise IndexError
  | a :: _ => Ok a
  end.

(** [s.idxmax()]: the position of the first largest cell; a [ValueError] on
    an empty column.  Missing cells are skipped; a column of missing cells
    only raises as well. *)
Fixpoint idxmax_from {A : Type} (ltb : A -> A -> bool)
  (best : A) (best_i i : nat) (s : list A) : nat :=
  match s with
  | [] => best_i
  | a :: s' =>
      if ltb best a then idxmax_from ltb a i (S i) s'
      else idxmax_from ltb best best_i (S i) s'
  end.

Definition idxmax {A : Type} (ltb : A -> A -> bool) (s : list A) : result nat :=
  match s with
  | [] => Raise ValueError
  | a :: s' => Ok (idxmax_from ltb a 0 1 s')
  end.

Definition Qltb (a b : Q) : bool := negb (Qle_bool b a).

Fixpoint idxmax_skipna_from (best : option (Q * nat)) (i : nat) (s : list (option Q))
  : option (Q * nat) :=
  match s with
  | [] => best
  | None :: s' => idxmax_skipna_from best (S i) s'
  | Some q :: s' =>
      match best with
      | None => idxmax_skipna_from (Some (q, i)) (S i) s'
      | Some (b, bi) =>
          if Qltb b q then idxmax_skipna_from (Some (q, i)) (S i) s'
          else idxmax_skipna_from best (S i) s'
      end
  end.

Definition idxmax_skipna (s : list (option Q)) : result nat :=
  match idxmax_skipna_from None 0 s with
  | Some (_, i) => Ok i
  | None => Raise ValueError
  end.

(** [df.loc[i]] on a frame with the default index [0 .. n-1]. *)
Definition loc {R : Type} (df : list R) (i : nat) : result R :=
  match nth_error df i with
  | Some r => Ok r
  | None => Raise KeyError
  end.

(** ** Filter derivation (module level of [olympic_data.py]) *)

Definition summer_data (df : DataFrame) : DataFrame :=
  getitem df (series_eq String.eqb (column season df) "Summer").

Definition valid_years (df : DataFrame) : list Z :=
  unique Z.eqb (column year (summer_data df)).

Definition valid_sports (df : DataFrame) : list string :=
  unique String.eqb (column sport (summer_data df)).

Record DropdownOption : Type := mkOption {
  label : string;
  value : string
}.

Definition sports_options (df : DataFrame) : list DropdownOption :=
  map (fun s => {| label := s; value := s |}) (valid_sports df).

Definition year_marks (df : DataFrame) : list (string * string) :=
  fold_left (fun d y => dict_set d (str y) (str y)) (sorted (valid_years df)) [].

(** ** The aggregator *)

(** The frame returned by [groupby('team').agg(...).reset_index()]. *)
Record TeamAgg : Type := mkTeamAgg {
  agg_team : string;
  agg_total_athletes : nat;
  agg_female_athletes : nat
}.

(** The same frame once the column [female_percentage] is assigned. *)
Record TeamStats : Type := mkTeamStats {
  ts_team : string;
  total_athletes : nat;
  female_athletes : nat;
  female_percentage : option Q
}.

(** The key of [groupby('team')]. *)
Definition by_team (r : AthleteRecord) : option string := Some (team r).

(** The two named aggregations of a group, on its [sex] column. *)
Definition agg (g : string * list AthleteRecord) : TeamAgg :=
  let x := column sex (snd g) in
  {| agg_team := fst g;
     agg_total_athletes := count x;
     agg_female_athletes := sum_bool (series_eq String.eqb x "F") |}.

Definition assign_female_percentage (t : TeamAgg) : TeamStats :=
  {| ts_team := agg_team t;
     total_athletes := agg_total_athletes t;
     female_athletes := agg_female_athletes t;
     female_percentage :=
       times100 (true_div (agg_female_athletes t) (agg_total_athletes t)) |}.

Definition calculate_team_stats (df : DataFrame) (year0 : Z) (sport0 : option string)
  : list TeamStats :=
  let df_filtered :=
    getitem df (mask_and (series_eq Z.eqb (column year df) year0)
                         (series_eq String.eqb (column season df) "Summer")) in
  let df_filtered :=
    if_str sport0
      (fun s => getitem df_filtered
                  (series_eq String.eqb (column sport df_filtered) s))
      df_filtered in
  let team_stats := map agg (groupby by_team df_filtered) in
  map assign_female_percentage team_stats.

(** ** The choropleth callback *)

Record Annotation : Type := mkAnnotation {
  highest_percentage_team : string;
  highest_percentage : option Q;
  highest_number_team : string;
  highest_number : nat;
  annotation_x : string
}.

Record Choropleth : Type := mkChoropleth {
  locations : list string;
  color : list (option Q);
  range_color : Q * Q;
  cmid : Q;
  annotations : list Annotation;
  customdata : list nat;
  map_title_year : Z;
  map_title_sport : string
}.

(** The figure drawn from the aggregate: the body of [update_map] after its
    first statement. *)
Definition choropleth_figure (team_stats_df : list TeamStats) (selected_year : Z)
  (selected_sport : option string) : result Choropleth :=
  i <- idxmax Nat.ltb (column female_athletes team_stats_df) ;;
  max_female <- loc team_stats_df i ;;
  j <- idxmax_skipna (column female_percentage team_stats_df) ;;
  max_female_percentage <- loc team_stats_df j ;;
  Ok {| locations := column ts_team team_stats_df;
        color := column female_percentage team_stats_df;
        range_color := (0, 100)%Q;
        cmid := 50%Q;
        annotations :=
          [ {| highest_percentage_team := ts_team max_female_percentage;
               highest_percentage := female_percentage max_female_percentage;
               highest_number_team := ts_team max_female;
               highest_number := female_athletes max_female;
               annotation_x := ts_team max_female |} ];
        customdata := column female_athletes team_stats_df;
        map_title_year := selected_year;
        map_title_sport := if_str selected_sport (fun s => s) "All" |}.

Definition update_map (df : DataFrame) (selected_year : Z)
  (selected_sport : option string) : result Choropleth :=
  let team_stats_df := calculate_team_stats df selected_year selected_sport in
  choropleth_figure team_stats_df selected_year selected_sport.

(** ** Hover events

    [hoverData] is [None] until the pointer is over a country, then a dict
    whose key ['points'] holds the points under the pointer, each a dict
    with its ['location']. *)

Record Point : Type := mkPoint {
  location : option string
}.

Definition HoverData := option (list (string * list Point)).

(** [p['location']]: a [KeyError] on a point without the key, which is a
    point whose [location] is [None]. *)
Definition point_location (p : Point) : result string :=
  match location p with
  | Some l => Ok l
  | None => Raise KeyError
  end.

(** [hover_data['points'][0]['location']]. *)
Definition first_location (d : list (string * list Point)) : result (option string) :=
  points <- dict_get d "points" ;;
  p <- index0 points ;;
  l <- point_location p ;;
  Ok (Some l).

(** A dict is true when it has a key. *)
Definition dict_truthy {V : Type} (d : list (string * V)) : bool :=
  match d with
  | [] => false
  | _ :: _ => true
  end.

(** ** The line-chart callback *)

Record CountRow (K : Type) : Type := mkCount {
  key_of : K;
  count_of : nat
}.

Arguments mkCount {K} _ _.
Arguments key_of {K} _.
Arguments count_of {K} _.

(** [.size().reset_index(name='count')]. *)
Definition size_reset_index {R K : Type} (gs : list (K * list R)) : list (CountRow K) :=
  map (fun g => mkCount (fst g) (List.length (snd g))) gs.

Record Scatter : Type := mkScatter {
  name : string;
  x : list Z;
  y : list nat;
  line_color : string
}.

Record LineChart : Type := mkLineChart {
  traces : list Scatter;
  vline : Z;
  line_title : string
}.

Definition line_hovered_team (hover_data : HoverData) : result (option string) :=
  match hover_data with
  | Some d =>
      if dict_truthy d && dict_in "points" d then first_location d else Ok None
  | None => Ok None
  end.

Definition line_filtered (df : DataFrame) (hovered_team selected_sport : option string)
  : DataFrame :=
  let df_filtered := getitem df (series_eq String.eqb (column season df) "Summer") in
  let df_filtered :=
    if_str hovered_team
      (fun t => getitem df_filtered
                  (series_eq String.eqb (column team df_filtered) t))
      df_filtered in
  if_str selected_sport
    (fun s => getitem df_filtered
                (series_eq String.eqb (column sport df_filtered) s))
    df_filtered.

Definition athlete_counts (df : DataFrame) (hovered_team selected_sport : option string)
  : list (CountRow (Z * string)) :=
  size_reset_index
    (groupby (fun r => Some (year r, sex r))
             (line_filtered df hovered_team selected_sport)).

Definition gender_trace (counts : list (CountRow (Z * string)))
  (gc : string * string) : Scatter :=
  let gender := fst gc in
  let gender_data :=
    getitem counts
      (series_eq String.eqb (column (fun c => snd (key_of c)) counts) gender) in
  {| name := if (gender =? "F")%string then "Female" else "Male";
     x := column (fun c => fst (key_of c)) gender_data;
     y := column count_of gender_data;
     line_color := snd gc |}.

(** The figure drawn from the counts: the two traces, the vertical line and
    the title. *)
Definition line_figure (counts : list (CountRow (Z * string)))
  (hovered_team : option string) (selected_year : Z) : LineChart :=
  {| traces :=
       map (gender_trace counts) (combine ["F"; "M"] ["darkblue"; "darkred"]);
     vline := selected_year;
     line_title :=
       ("Athlete Count by Gender Over Time "
        ++ if_str hovered_team (fun t => "for " ++ t) "Globally")%string |}.

Definition update_line_chart (df : DataFrame) (hover_data : HoverData)
  (selected_year : Z) (selected_sport : option string) : result LineChart :=
  hovered_team <- line_hovered_team hover_data ;;
  let counts := athlete_counts df hovered_team selected_sport in
  Ok (line_figure counts hovered_team selected_year).

(** ** The sunburst callback *)

Record Sunburst : Type := mkSunburst {
  sunburst_data : list (CountRow (string * string));
  sunburst_path : list string;
  sunburst_title : string
}.

Definition sunburst_hovered_team (hover_data : HoverData) : result (option string) :=
  match hover_data with
  | Some d => if dict_truthy d then first_location d else Ok None
  | None => Ok None
  end.

Definition sunburst_filtered (df : DataFrame) (hovered_team : option string)
  (selected_year : Z) (selected_sport : option string) : DataFrame :=
  let df_filtered :=
    getitem df (mask_and (series_eq Z.eqb (column year df) selected_year)
                         (series_eq String.eqb (column season df) "Summer")) in
  let df_filtered :=
    if_str hovered_team
      (fun t => getitem df_filtered
                  (series_eq String.eqb (column team df_filtered) t))
      df_filtered in
  if_str selected_sport
    (fun s => getitem df_filtered
                (series_eq String.eqb (column sport df_filtered) s))
    df_filtered.

(** A row without a medal has a missing cell in its key. *)
Definition sex_medal (r : AthleteRecord) : option (string * string) :=
  match medal r with
  | Some m => Some (sex r, m)
  | None => None
  end.

Definition medal_counts (df : DataFrame) (hovered_team : option string)
  (selected_year : Z) (selected_sport : option string)
  : list (CountRow (string * string)) :=
  size_reset_index
    (groupby sex_medal (sunburst_filtered df hovered_team selected_year selected_sport)).

Definition sunburst_figure (counts : list (CountRow (string * string)))
  (hovered_team : option string) : Sunburst :=
  {| sunburst_data := counts;
     sunburst_path := ["sex"; "medal"];
     sunburst_title :=
       ("Medal Counts by Gender "
        ++ if_str hovered_team (fun t => "for " ++ t) "Globally")%string |}.

Definition update_sunburst (df : DataFrame) (hover_data : HoverData)
  (selected_year : Z) (selected_sport : option string) : result Sunburst :=
  hovered_team <- sunburst_hovered_team hover_data ;;
  let counts := medal_counts df hovered_team selected_year selected_sport in
  Ok (sunburst_figure counts hovered_team).

(** ** The layout and the callback wiring *)

Record Slider : Type := mkSlider {
  slider_min : Z;
  slider_max : Z;
  slider_step : Z;
  slider_value : Z;
  slider_marks : list (string * string)
}.

Record Layout : Type := mkLayout {
  dropdown_options : list DropdownOption;
  year_slider : Slider
}.

Definition layout (df : DataFrame) : result Layout :=
  lo <- py_min (valid_years df) ;;
  hi <- py_max (valid_years df) ;;
  v <- py_min (valid_years df) ;;
  Ok {| dropdown_options := sports_options df;
        year_slider :=
          {| slider_min := lo;
             slider_max := hi;
             slider_step := 1;
             slider_value := v;
             slider_marks := year_marks df |} |}.

(** The values of the three inputs the callbacks are wired to. *)
Record Controls : Type := mkControls {
  hoverData : HoverData;
  year_slider_value : Z;
  sport_dropdown_value : option string
}.

(** The three [@app.callback] declarations: each output is the callback
    applied to the inputs it lists. *)
Definition choropleth_map (df : DataFrame) (c : Controls) : result Choropleth :=
  update_map df (year_slider_value c) (sport_dropdown_value c).

Definition line_chart (df : DataFrame) (c : Controls) : result LineChart :=
  update_line_chart df (hoverData c) (year_slider_value c) (sport_dropdown_value c).

Definition sunburst_chart (df : DataFrame) (c : Controls) : result Sunburst :=
  update_sunburst df (hoverData c) (year_slider_value c) (sport_dropdown_value c).

(** ** The callbacks with their objects

    The callbacks read the module-level frame [df]; every selection, every
    [groupby] and every [reset_index] makes a new frame, and one statement,
    [team_stats['female_percentage'] = ...], writes into a frame.  Here the
    frames live in a store, at their addresses, and the same statements are
    run on the store. *)

Inductive object : Type :=
| Frame (rows : DataFrame)
| AggFrame (rows : list TeamAgg)
| StatsFrame (rows : list TeamStats)
| YearSexCounts (rows : list (CountRow (Z * string)))
| SexMedalCounts (rows : list (CountRow (string * string))).

Definition store := list object.

Definition Run (A : Type) : Type := store -> result A * store.

Definition ret {A : Type} (a : A) : Run A := fun st => (Ok a, st).

Definition lift {A : Type} (r : result A) : Run A := fun st => (r, st).

Definition bind_run {A B : Type} (m : Run A) (k : A -> Run B) : Run B :=
  fun st =>
    match m st with
    | (Ok a, st') => k a st'
    | (Raise e, st') => (Raise e, st')
    end.

Notation "x <~ m ;; k" := (bind_run m (fun x => k))
  (at level 61, m at next level, right associativity).

(** A new object gets the next address. *)
Definition new (o : object) : Run nat :=
  fun st => (Ok (List.length st), st ++ [o]).

Fixpoint set_nth (a : nat) (o : object) (st : store) : store :=
  match st, a with
  | [], _ => []
  | _ :: st', O => o :: st'
  | b :: st', S a' => b :: set_nth a' o st'
  end.

Definition read_frame (a : nat) : Run DataFrame :=
  fun st =>
    match nth_error st a with
    | Some (Frame rows) => (Ok rows, st)
    | _ => (Raise KeyError, st)
    end.

Definition read_stats (a : nat) : Run (list TeamStats) :=
  fun st =>
    match nth_error st a with
    | Some (StatsFrame rows) => (Ok rows, st)
    | _ => (Raise KeyError, st)
    end.

Definition read_year_sex (a : nat) : Run (list (CountRow (Z * string))) :=
  fun st =>
    match nth_error st a with
    | Some (YearSexCounts rows) => (Ok rows, st)
    | _ => (Raise KeyError, st)
    end.

Definition read_sex_medal (a : nat) : Run (list (CountRow (string * string))) :=
  fun st =>
    match nth_error st a with
    | Some (SexMedalCounts rows) => (Ok rows, st)
    | _ => (Raise KeyError, st)
    end.

(** [f[f[c] == v]]: a new frame. *)
Definition select (f : nat) (c : AthleteRecord -> string) (v : string) : Run nat :=
  rows <~ read_frame f ;;
  new (Frame (getitem rows (series_eq String.eqb (column c rows) v))).

(** [f[(f['year'] == y) & (f['season'] == 'Summer')]]: a new frame. *)
Definition select_year_summer (f : nat) (y : Z) : Run nat :=
  rows <~ read_frame f ;;
  new (Frame (getitem rows (mask_and (series_eq Z.eqb (column year rows) y)
                                     (series_eq String.eqb (column season rows)
                                                "Summer")))).

(** [team_stats['female_percentage'] = ...]: a write into the frame at
    [team_stats]. *)
Definition set_female_percentage (team_stats : nat) : Run unit :=
  fun st =>
    match nth_error st team_stats with
    | Some (AggFrame rows) =>
        (Ok tt, set_nth team_stats (StatsFrame (map assign_female_percentage rows)) st)
    | _ => (Raise KeyError, st)
    end.

Definition exec_calculate_team_stats (df : nat) (year0 : Z) (sport0 : option string)
  : Run nat :=
  df_filtered <~ select_year_summer df year0 ;;
  df_filtered <~ if_str sport0 (fun s => select df_filtered sport s) (ret df_filtered) ;;
  rows <~ read_frame df_filtered ;;
  team_stats <~ new (AggFrame (map agg (groupby by_team rows))) ;;
  _ <~ set_female_percentage team_stats ;;
  ret team_stats.

Definition exec_update_map (df : nat) (selected_year : Z)
  (selected_sport : option string) : Run Choropleth :=
  team_stats_df <~ exec_calculate_team_stats df selected_year selected_sport ;;
  stats <~ read_stats team_stats_df ;;
  lift (choropleth_figure stats selected_year selected_sport).

Definition exec_update_line_chart (df : nat) (hover_data : HoverData)
  (selected_year : Z) (selected_sport : option string) : Run LineChart :=
  hovered_team <~ lift (line_hovered_team hover_data) ;;
  df_filtered <~ select df season "Summer" ;;
  df_filtered <~ if_str hovered_team (fun t => select df_filtered team t)
                   (ret df_filtered) ;;
  df_filtered <~ if_str selected_sport (fun s => select df_filtered sport s)
                   (ret df_filtered) ;;
  rows <~ read_frame df_filtered ;;
  athlete_counts <~ new (YearSexCounts
                           (size_reset_index
                              (groupby (fun r => Some (year r, sex r)) rows))) ;;
  counts <~ read_year_sex athlete_counts ;;
  ret (line_figure counts hovered_team selected_year).

Definition exec_update_sunburst (df : nat) (hover_data : HoverData)
  (selected_year : Z) (selected_sport : option string) : Run Sunburst :=
  hovered_team <~ lift (sunburst_hovered_team hover_data) ;;
  df_filtered <~ select_year_summer df selected_year ;;
  df_filtered <~ if_str hovered_team (fun t => select df_filtered team t)
                   (ret df_filtered) ;;
  df_filtered <~ if_str selected_sport (fun s => select df_filtered sport s)
                   (ret df_filtered) ;;
  rows <~ read_frame df_filtered ;;
  medal_counts <~ new (SexMedalCounts (size_reset_index (groupby sex_medal rows))) ;;
  counts <~ read_sex_medal medal_counts ;;
  ret (sunburst_figure counts hovered_team).

(** ** The selection of the aggregator as a predicate on rows

    What the code selects: the rows of the Summer season and of the year,
    and of the sport when the argument is a non-empty string; the code takes
    [None] and the empty string alike as no selection. *)

Definition given (v : option string) : option string := if_str v Some None.

Definition matches (year0 : Z) (sport0 : option string) (r : AthleteRecord) : bool :=
  (season r =? "Summer")%string && (year r =? year0)%Z
  && match given sport0 with
     | Some s => (sport r =? s)%string
     | None => true
     end.

(** ** The aggregator in the words of the specification

    [computeTeamStats]: filter the rows to season Summer and the year, and to
    the sport when one is given; group the remaining rows by team; report per
    team the number of its rows, the number of its rows with sex F, and the
    quotient of the two times 100.  A sport is given when the argument is a
    string, whichever it is, and not given when it is [None]. *)

Definition matches_spec (year0 : Z) (sport0 : option string) (r : AthleteRecord)
  : bool :=
  (season r =? "Summer")%string && (year r =? year0)%Z
  && match sport0 with
     | Some s => (sport r =? s)%string
     | None => true
     end.

Definition team_row (rows : DataFrame) (t : string) : TeamStats :=
  let of_team := filter (fun r => (team r =? t)%string) rows in
  let total := List.length of_team in
  let female := List.length (filter (fun r => (sex r =? "F")%string) of_team) in
  {| ts_team := t;
     total_athletes := total;
     female_athletes := female;
     female_percentage :=
       match total with
       | O => None
       | S _ => Some (inject_Z (Z.of_nat female) / inject_Z (Z.of_nat total) * 100)%Q
       end |}.

Definition computeTeamStats_spec (df : DataFrame) (year0 : Z) (sport0 : option string)
  : list TeamStats :=
  let rows := filter (matches_spec year0 sport0) df in
  map (team_row rows) (nodup string_dec (map team rows)).

(** ** The selections as predicates on rows *)

(** The selection of a callback in one predicate: the hovered team and the
    selected sport restrict the rows when they are set. *)
Definition selected_by (v : option string) (c : AthleteRecord -> string)
  (r : AthleteRecord) : bool :=
  match given v with
  | Some s => (c r =? s)%string
  | None => true
  end.

Definition in_line_chart (hovered_team selected_sport : option string)
  (r : AthleteRecord) : bool :=
  (season r =? "Summer")%string
  && selected_by hovered_team team r
  && selected_by selected_sport sport r.

Definition in_sunburst (hovered_team : option string) (selected_year : Z)
  (selected_sport : option string) (r : AthleteRecord) : bool :=
  matches selected_year selected_sport r && selected_by hovered_team team r.

Definition medal_is (m : string) (r : AthleteRecord) : bool :=
  match medal r with
  | Some m' => (m' =? m)%string
  | None => false
  end.

Definition has_medal (r : AthleteRecord) : bool :=
  match medal r with
  | Some _ => true
  | None => false
  end.

(** The rows behind the point of the series of [gender] at the year [yr]. *)
Definition line_point_rows (hovered_team selected_sport : option string)
  (gender : string) (yr : Z) (r : AthleteRecord) : bool :=
  in_line_chart hovered_team selected_sport r
  && ((year r =? yr)%Z && (sex r =? gender)%string).

(** The counts of the line chart in the words of the specification: the rows
    of the Summer season, of the hovered team when one is set, grouped by year
    and sex. *)
Definition athlete_counts_spec (df : DataFrame) (hovered_team : option string)
  : list (CountRow (Z * string)) :=
  size_reset_index
    (groupby (fun r => Some (year r, sex r))
       (filter (fun r => (season r =? "Summer")%string
                         && selected_by hovered_team team r) df)).

(** ** Sample data *)

Definition london : DataFrame :=
  [ mkAthlete 2012 "Summer" "Swimming" "France" "F" (Some "Gold");
    mkAthlete 2012 "Summer" "Swimming" "Italy" "F" (Some "Gold");
    mkAthlete 2012 "Summer" "Athletics" "France" "M" None;
    mkAthlete 1896 "Summer" "Athletics" "Greece" "M" (Some "Silver");
    mkAthlete 2014 "Winter" "Curling" "Canada" "F" None ].

(** The hover event over one country. *)
Definition hover_over (t : string) : HoverData :=
  Some [("points", [ {| location := Some t |} ])].

Definition france_2012 : TeamStats :=
  {| ts_team := "France";
     total_athletes := 2;
     female_athletes := 1;
     female_percentage := Some (inject_Z 1 / inject_Z 2 * 100)%Q |}.

(** * Properties *)

(** ** The orders on keys *)

Lemma string_lt_irrefl (a : string) : String_as_OT.compare a a <> Lt.
Proof.
  intro H. exact (StrictOrder_Irreflexive (R := String_as_OT.lt) a H).
Qed.

Lemma string_cmp_eq (a b : string) : String_as_OT.compare a b = Eq <-> a = b.
Proof.
  destruct (String_as_OT.compare_spec a b) as [E|L|L].
  - split; [intro; exact E | reflexivity].
  - split; [discriminate|]. intro; subst. destruct (string_lt_irrefl _ L).
  - split; [discriminate|]. intro; subst. destruct (string_lt_irrefl _ L).
Qed.

Lemma string_cmp_trans (a b c : string) :
  String_as_OT.compare a b = Lt -> String_as_OT.compare b c = Lt ->
  String_as_OT.compare a c = Lt.
Proof.
  intros H1 H2.
  exact (StrictOrder_Transitive (R := String_as_OT.lt) a b c H1 H2).
Qed.

Lemma string_cmp_antisym (a b : string) :
  String_as_OT.compare b a = CompOpp (String_as_OT.compare a b).
Proof.
  destruct (String_as_OT.compare_spec a b) as [E|L|L]; simpl.
  - apply string_cmp_eq. symmetry. exact E.
  - destruct (String_as_OT.compare_spec b a) as [E'|L'|L']; auto.
    + red in E'. subst. destruct (string_lt_irrefl _ L).
    + destruct (string_lt_irrefl _ (string_cmp_trans _ _ _ L L')).
  - exact L.
Qed.

#[export] Instance string_order_laws : KeyOrderLaws string :=
  Build_KeyOrderLaws string string_order
    string_cmp_eq string_cmp_antisym string_cmp_trans.

Lemma Z_cmp_trans (a b c : Z) :
  Z.compare a b = Lt -> Z.compare b c = Lt -> Z.compare a c = Lt.
Proof. rewrite !Z.compare_lt_iff. lia. Qed.

#[export] Instance Z_order_laws : KeyOrderLaws Z :=
  Build_KeyOrderLaws Z Z_order Z.compare_eq_iff Z.compare_antisym Z_cmp_trans.

Lemma cmp_refl {K} `{KeyOrderLaws K} (a : K) : cmp a a = Eq.
Proof. apply cmp_eq. reflexivity. Qed.

Section Lexicographic.
Context {A B : Type} `{KeyOrderLaws A} `{KeyOrderLaws B}.

Lemma lex_cmp_eq (p q : A * B) : lex_cmp p q = Eq <-> p = q.
Proof.
  destruct p as [a b], q as [a' b']. unfold lex_cmp; simpl.
  destruct (cmp a a') eqn:E.
  - apply cmp_eq in E. subst. rewrite cmp_eq. split; congruence.
  - split; [discriminate|]. intro Heq. inversion Heq; subst.
    rewrite cmp_refl in E. discriminate.
  - split; [discriminate|]. intro Heq. inversion Heq; subst.
    rewrite cmp_refl in E. discriminate.
Qed.

Lemma lex_cmp_antisym (p q : A * B) : lex_cmp q p = CompOpp (lex_cmp p q).
Proof.
  destruct p as [a b], q as [a' b']. unfold lex_cmp; simpl.
  rewrite (cmp_antisym a a').
  destruct (cmp a a'); simpl; auto. apply cmp_antisym.
Qed.

Lemma lex_cmp_trans (p q r : A * B) :
  lex_cmp p q = Lt -> lex_cmp q r = Lt -> lex_cmp p r = Lt.
Proof.
  destruct p as [a b], q as [a' b'], r as [a'' b'']. unfold lex_cmp; simpl.
  destruct (cmp a a') eqn:E1; try discriminate;
    destruct (cmp a' a'') eqn:E2; try discriminate; intros L1 L2.
  - apply cmp_eq in E1, E2. subst. rewrite cmp_refl.
    eapply cmp_trans; eassumption.
  - apply cmp_eq in E1. subst. rewrite E2. reflexivity.
  - apply cmp_eq in E2. subst. rewrite E1. reflexivity.
  - rewrite (cmp_trans _ _ _ E1 E2). reflexivity.
Qed.

#[export] Instance pair_order_laws : KeyOrderLaws (A * B) :=
  Build_KeyOrderLaws (A * B) pair_order lex_cmp_eq lex_cmp_antisym lex_cmp_trans.
End Lexicographic.

(** ** Masks and selections *)

Lemma getitem_map {R : Type} (p : R -> bool) (df : list R) :
  getitem df (map p df) = filter p df.
Proof.
  induction df as [|r df IH]; simpl; [reflexivity|].
  destruct (p r); rewrite IH; reflexivity.
Qed.

Lemma mask_and_map {R : Type} (p q : R -> bool) (df : list R) :
  mask_and (map p df) (map q df) = map (fun r => p r && q r) df.
Proof.
  induction df as [|r df IH]; simpl; [reflexivity|]. rewrite IH. reflexivity.
Qed.

Lemma getitem_series_eq {R A : Type} (eqb : A -> A -> bool) (c : R -> A)
  (df : list R) (v : A) :
  getitem df (series_eq eqb (column c df) v) = filter (fun r => eqb (c r) v) df.
Proof.
  unfold series_eq, column. rewrite map_map. apply getitem_map.
Qed.

Lemma getitem_mask_and {R A B : Type} (eqa : A -> A -> bool) (eqb : B -> B -> bool)
  (c : R -> A) (d : R -> B) (df : list R) (v : A) (w : B) :
  getitem df (mask_and (series_eq eqa (column c df) v)
                       (series_eq eqb (column d df) w))
  = filter (fun r => eqa (c r) v && eqb (d r) w) df.
Proof.
  unfold series_eq, column. rewrite !map_map, mask_and_map. apply getitem_map.
Qed.

Lemma filter_filter {R : Type} (p q : R -> bool) (l : list R) :
  filter p (filter q l) = filter (fun r => q r && p r) l.
Proof.
  induction l as [|r l IH]; simpl; [reflexivity|].
  destruct (q r); simpl; [destruct (p r)|]; rewrite IH; reflexivity.
Qed.

Lemma sum_bool_filter {R : Type} (p : R -> bool) (l : list R) :
  sum_bool (map p l) = List.length (filter p l).
Proof.
  induction l as [|r l IH]; simpl; [reflexivity|].
  rewrite IH. destruct (p r); reflexivity.
Qed.

(** ** groupby *)

Section GroupByFacts.
Context {R K : Type} `{KeyOrderLaws K}.
Implicit Types (k : K) (r : R) (gs : list (K * list R)).
Implicit Types (key : R -> option K) (rows pre : list R).

Lemma keqb_eq k k' : keqb k k' = true <-> k = k'.
Proof.
  unfold keqb. rewrite <- cmp_eq. destruct (cmp k k'); split; congruence.
Qed.

Lemma keqb_refl k : keqb k k = true.
Proof. apply keqb_eq. reflexivity. Qed.

Lemma klt_flip k k' : cmp k k' = Gt -> klt k' k.
Proof. intro E. unfold klt. rewrite cmp_antisym, E. reflexivity. Qed.

Lemma klt_keqb k k' : klt k k' -> keqb k k' = false /\ keqb k' k = false.
Proof.
  unfold klt, keqb. intro L. rewrite (cmp_antisym k k'), L. auto.
Qed.

Lemma group_of_cons k k' (rs : list R) gs :
  group_of k ((k', rs) :: gs) = if keqb k k' then rs else group_of k gs.
Proof. unfold group_of. simpl. destruct (keqb k k'); reflexivity. Qed.

Lemma group_of_below k gs :
  Forall (klt k) (map fst gs) -> group_of k gs = [].
Proof.
  induction gs as [|[k' rs] gs IH]; intro F; [reflexivity|].
  simpl in F. inversion F as [|? ? L F']; subst. rewrite group_of_cons.
  destruct (klt_keqb _ _ L) as [-> _]. auto.
Qed.

Lemma insert_group_keys k k' r gs :
  In k (map fst (insert_group k' r gs)) <-> k = k' \/ In k (map fst gs).
Proof.
  induction gs as [|[k1 rs] gs IH]; simpl.
  - intuition.
  - destruct (cmp k' k1) eqn:E; simpl.
    + apply cmp_eq in E. subst. intuition.
    + intuition.
    + rewrite IH. intuition.
Qed.

Lemma insert_group_sorted k r gs :
  StronglySorted klt (map fst gs) ->
  StronglySorted klt (map fst (insert_group k r gs)).
Proof.
  induction gs as [|[k1 rs] gs IH]; simpl; intro S.
  - repeat constructor.
  - inversion S as [|? ? S' F]; subst.
    destruct (cmp k k1) eqn:E; simpl.
    + constructor; assumption.
    + constructor; [assumption|]. constructor; [exact E|].
      eapply Forall_impl; [|exact F]. intros a La.
      exact (cmp_trans _ _ _ E La).
    + constructor; [auto|]. apply Forall_forall. intros a Ia.
      apply insert_group_keys in Ia. destruct Ia as [->|Ia].
      * apply klt_flip. exact E.
      * rewrite Forall_forall in F. auto.
Qed.

Lemma group_of_insert k k' r gs :
  StronglySorted klt (map fst gs) ->
  group_of k (insert_group k' r gs)
  = if keqb k k' then group_of k gs ++ [r] else group_of k gs.
Proof.
  induction gs as [|[k1 rs] gs IH]; simpl; intro S.
  - rewrite group_of_cons. unfold group_of; simpl.
    destruct (keqb k k'); reflexivity.
  - inversion S as [|? ? S' F]; subst.
    destruct (cmp k' k1) eqn:E.
    + apply cmp_eq in E. subst k1. rewrite !group_of_cons.
      destruct (keqb k k'); reflexivity.
    + rewrite (group_of_cons k k'). destruct (keqb k k') eqn:Ek; [|reflexivity].
      apply keqb_eq in Ek. subst k'.
      rewrite (group_of_below k ((k1, rs) :: gs)); [reflexivity|].
      simpl. constructor; [exact E|].
      eapply Forall_impl; [|exact F]. intros a La.
      exact (cmp_trans _ _ _ E La).
    + rewrite !group_of_cons. destruct (keqb k k1) eqn:Ek.
      * apply keqb_eq in Ek. subst k1.
        destruct (klt_keqb _ _ (klt_flip _ _ E)) as [-> _]. reflexivity.
      * apply IH. exact S'.
Qed.

Lemma In_group_of k (rs : list R) gs :
  StronglySorted klt (map fst gs) -> In (k, rs) gs -> group_of k gs = rs.
Proof.
  induction gs as [|[k1 rs1] gs IH]; simpl; intros S I; [contradiction|].
  inversion S as [|? ? S' F]; subst. rewrite group_of_cons.
  destruct I as [E|I].
  - inversion E; subst. rewrite keqb_refl. reflexivity.
  - rewrite Forall_forall in F.
    assert (L : klt k1 k) by (apply F; apply (in_map fst _ _ I)).
    destruct (klt_keqb _ _ L) as [_ ->]. auto.
Qed.

Lemma group_of_In k gs :
  group_of k gs <> [] -> In (k, group_of k gs) gs.
Proof.
  induction gs as [|[k1 rs1] gs IH]; intro N.
  - destruct N. reflexivity.
  - rewrite group_of_cons in *. destruct (keqb k k1) eqn:Ek.
    + apply keqb_eq in Ek. subst. left. reflexivity.
    + right. auto.
Qed.

Lemma sorted_keys_NoDup gs :
  StronglySorted klt (map fst gs) -> NoDup (map fst gs).
Proof.
  induction (map fst gs) as [|k ks IH]; intro S; constructor;
    inversion S as [|? ? S' F]; subst; auto.
  intro I. rewrite Forall_forall in F. specialize (F _ I).
  unfold klt in F. rewrite cmp_refl in F. discriminate.
Qed.

Lemma insert_group_nonempty k r gs :
  (forall g, In g gs -> snd g <> []) ->
  forall g, In g (insert_group k r gs) -> snd g <> [].
Proof.
  induction gs as [|[k1 rs] gs IH]; simpl; intros N g I.
  - destruct I as [<-|[]]. discriminate.
  - destruct (cmp k k1); simpl in I.
    + destruct I as [<-|I]; [|auto]. simpl. destruct rs; discriminate.
    + destruct I as [<-|I]; [discriminate|auto].
    + destruct I as [<-|I]; [apply (N (k1, rs)); auto|].
      apply IH; auto.
Qed.

Lemma groupby_step_inv key pre gs r :
  groups_of key pre gs -> groups_of key (pre ++ [r]) (groupby_step key gs r).
Proof.
  intros (S & N & G). unfold groupby_step, groups_of.
  destruct (key r) as [k'|] eqn:Ekey.
  - split; [apply insert_group_sorted; exact S|].
    split; [apply insert_group_nonempty; exact N|].
    intro k. rewrite group_of_insert by exact S. rewrite filter_app, G. simpl.
    replace (has_key key k r) with (keqb k k')
      by (unfold has_key; rewrite Ekey; reflexivity).
    destruct (keqb k k'); [reflexivity|]. rewrite app_nil_r. reflexivity.
  - split; [exact S|]. split; [exact N|].
    intro k. rewrite filter_app, G. simpl.
    replace (has_key key k r) with false
      by (unfold has_key; rewrite Ekey; reflexivity).
    rewrite app_nil_r. reflexivity.
Qed.

Lemma fold_groupby_inv key rows : forall pre gs,
  groups_of key pre gs ->
  groups_of key (pre ++ rows) (fold_left (groupby_step key) rows gs).
Proof.
  induction rows as [|r rows IH]; simpl; intros pre gs I.
  - rewrite app_nil_r. exact I.
  - replace (pre ++ r :: rows) with ((pre ++ [r]) ++ rows)
      by (rewrite <- app_assoc; reflexivity).
    apply IH. apply groupby_step_inv. exact I.
Qed.

Lemma groupby_inv key rows : groups_of key rows (groupby key rows).
Proof.
  apply (fold_groupby_inv key rows [] []).
  split; [constructor|]. split; [intros g []|]. intro k. reflexivity.
Qed.

Lemma groupby_sorted key rows :
  StronglySorted klt (map fst (groupby key rows)).
Proof. apply groupby_inv. Qed.

Lemma groupby_NoDup key rows : NoDup (map fst (groupby key rows)).
Proof. apply sorted_keys_NoDup, groupby_sorted. Qed.

Lemma groupby_In key rows k (rs : list R) :
  In (k, rs) (groupby key rows)
  <-> rs = filter (has_key key k) rows /\ rs <> [].
Proof.
  destruct (groupby_inv key rows) as (S & N & G). split.
  - intro I. split; [|exact (N _ I)].
    rewrite <- G. symmetry. apply In_group_of; assumption.
  - intros [-> Hne]. rewrite <- G in *. apply group_of_In. exact Hne.
Qed.

Lemma groupby_keys key rows k :
  In k (map fst (groupby key rows))
  <-> exists r, In r rows /\ key r = Some k.
Proof.
  split.
  - intro I. apply in_map_iff in I. destruct I as ([k' rs] & E & I).
    simpl in E. subst k'. apply groupby_In in I. destruct I as [-> Hne].
    destruct (filter (has_key key k) rows) as [|r l] eqn:F; [congruence|].
    assert (Ir : In r (filter (has_key key k) rows)) by (rewrite F; left; auto).
    apply filter_In in Ir. destruct Ir as [Ir Hk]. exists r. split; [exact Ir|].
    unfold has_key in Hk. destruct (key r) as [k'|]; [|discriminate].
    apply keqb_eq in Hk. congruence.
  - intros (r & Ir & Ek).
    assert (I : In (k, filter (has_key key k) rows) (groupby key rows)).
    { apply groupby_In. split; [reflexivity|]. intro E.
      assert (Ir' : In r (filter (has_key key k) rows)).
      { apply filter_In. split; [exact Ir|]. unfold has_key. rewrite Ek.
        apply keqb_refl. }
      rewrite E in Ir'. destruct Ir'. }
    apply (in_map fst _ _ I).
Qed.

Lemma insert_group_rows k r gs : rows_in (insert_group k r gs) = S (rows_in gs).
Proof.
  unfold rows_in. induction gs as [|[k1 rs] gs IH]; simpl; [reflexivity|].
  destruct (cmp k k1); simpl.
  - rewrite length_app. simpl. lia.
  - reflexivity.
  - rewrite IH. lia.
Qed.

Lemma fold_groupby_rows key rows : forall gs,
  rows_in (fold_left (groupby_step key) rows gs)
  = rows_in gs + List.length (filter (keyed key) rows).
Proof.
  induction rows as [|r rows IH]; simpl; intro gs; [lia|].
  rewrite IH. unfold groupby_step, keyed.
  destruct (key r); simpl; [rewrite insert_group_rows|]; lia.
Qed.

Lemma groupby_rows key rows :
  rows_in (groupby key rows) = List.length (filter (keyed key) rows).
Proof. apply (fold_groupby_rows key rows []). Qed.
End GroupByFacts.

(** ** The aggregator *)

Lemma has_key_team (t : string) (r : AthleteRecord) :
  has_key by_team t r = (team r =? t)%string.
Proof.
  unfold has_key, by_team.
  destruct (team r =? t)%string eqn:E.
  - apply String.eqb_eq in E. subst. apply keqb_refl.
  - destruct (keqb t (team r)) eqn:E'; [|reflexivity].
    apply keqb_eq in E'. subst. rewrite String.eqb_refl in E. discriminate.
Qed.

Lemma matches_given (year0 : Z) (s : string) (r : AthleteRecord) :
  s <> "" ->
  matches year0 (Some s) r
  = ((year r =? year0)%Z && (season r =? "Summer")%string) && (sport r =? s)%string.
Proof.
  intro N. unfold matches, given, if_str.
  destruct (s =? "")%string eqn:E; [apply String.eqb_eq in E; contradiction|].
  rewrite (andb_comm (season r =? "Summer")%string). reflexivity.
Qed.

Lemma matches_not_given (year0 : Z) (v : option string) (r : AthleteRecord) :
  given v = None ->
  matches year0 v r = (year r =? year0)%Z && (season r =? "Summer")%string.
Proof.
  intro N. unfold matches. rewrite N, andb_true_r. apply andb_comm.
Qed.

(** The two selections of [calculate_team_stats] keep the rows that match the
    year, the season and the sport. *)
Lemma calculate_team_stats_groups (df : DataFrame) (year0 : Z) (sport0 : option string) :
  calculate_team_stats df year0 sport0
  = map (fun g => assign_female_percentage (agg g))
        (groupby by_team (filter (matches year0 sport0) df)).
Proof.
  unfold calculate_team_stats. rewrite map_map, getitem_mask_and.
  f_equal. f_equal. unfold if_str.
  destruct sport0 as [s|].
  - destruct (s =? "")%string eqn:E.
    + apply filter_ext. intro r. symmetry. apply matches_not_given.
      unfold given, if_str. rewrite E. reflexivity.
    + rewrite getitem_series_eq, filter_filter. apply filter_ext. intro r.
      symmetry. apply matches_given. intro; subst. discriminate.
  - apply filter_ext. intro r. symmetry. apply matches_not_given. reflexivity.
Qed.

Lemma agg_group (rows : DataFrame) (t : string) (rs : DataFrame) :
  In (t, rs) (groupby by_team rows) ->
  assign_female_percentage (agg (t, rs)) = team_row rows t.
Proof.
  intro I. apply groupby_In in I. destruct I as [-> _].
  rewrite (filter_ext _ _ (has_key_team t)).
  unfold assign_female_percentage, agg, team_row, count, series_eq, column; simpl.
  rewrite !map_map, sum_bool_filter, length_map.
  f_equal. unfold times100, true_div.
  destruct (List.length (filter (fun r => (team r =? t)%string) rows));
    reflexivity.
Qed.

Lemma calculate_team_stats_rows (df : DataFrame) (year0 : Z) (sport0 : option string) :
  let rows := filter (matches year0 sport0) df in
  calculate_team_stats df year0 sport0
  = map (team_row rows) (map fst (groupby by_team rows)).
Proof.
  intro rows. rewrite calculate_team_stats_groups, map_map.
  apply map_ext_in. intros [t rs] I. apply agg_group. exact I.
Qed.

Lemma teams_of_groups (rows : DataFrame) (t : string) :
  In t (map fst (groupby by_team rows)) <-> In t (map team rows).
Proof.
  rewrite groupby_keys, in_map_iff. unfold by_team.
  split; intros (r & A & B).
  - exists r. split; [congruence|assumption].
  - exists r. split; [assumption|congruence].
Qed.

Lemma team_row_counts (rows : DataFrame) (t : string) :
  female_athletes (team_row rows t) <= total_athletes (team_row rows t).
Proof. simpl. apply filter_length_le. Qed.

Lemma team_row_present (rows : DataFrame) (t : string) :
  In t (map team rows) -> 1 <= total_athletes (team_row rows t).
Proof.
  intro I. apply in_map_iff in I. destruct I as (r & E & I). simpl.
  assert (Ir : In r (filter (fun r => (team r =? t)%string) rows)).
  { apply filter_In. split; [exact I|]. apply String.eqb_eq. exact E. }
  destruct (filter _ rows); [destruct Ir|simpl; lia].
Qed.

Lemma In_calculate_team_stats (df : DataFrame) (year0 : Z) (sport0 : option string)
  (row : TeamStats) :
  In row (calculate_team_stats df year0 sport0)
  <-> exists t, In t (map team (filter (matches year0 sport0) df))
             /\ row = team_row (filter (matches year0 sport0) df) t.
Proof.
  rewrite calculate_team_stats_rows. cbv zeta. rewrite in_map_iff.
  split; intros (t & A & B).
  - exists t. split; [apply teams_of_groups; exact B|auto].
  - exists t. split; [auto|apply teams_of_groups; exact A].
Qed.

Lemma calculate_team_stats_teams_once
  (df : DataFrame) (year0 : Z) (sport0 : option string) :
  Permutation (calculate_team_stats df year0 sport0)
              (map (team_row (filter (matches year0 sport0) df))
                   (nodup string_dec (map team (filter (matches year0 sport0) df)))).
Proof.
  rewrite calculate_team_stats_rows. cbv zeta.
  apply Permutation_map. apply NoDup_Permutation.
  - apply groupby_NoDup.
  - apply NoDup_nodup.
  - intro t. rewrite teams_of_groups, nodup_In. reflexivity.
Qed.

(** A sport that is not the empty string is selected by the code as the
    specification says. *)
Lemma matches_spec_selected (year0 : Z) (sport0 : option string) (r : AthleteRecord) :
  sport0 <> Some "" -> matches_spec year0 sport0 r = matches year0 sport0 r.
Proof.
  intro N. unfold matches_spec, matches, given, if_str.
  destruct sport0 as [s|]; [|reflexivity].
  destruct (s =? "")%string eqn:E; [|reflexivity].
  apply String.eqb_eq in E. subst. congruence.
Qed.

Lemma calculate_team_stats_empty_sport (df : DataFrame) (year0 : Z) :
  calculate_team_stats df year0 (Some "") = calculate_team_stats df year0 None.
Proof. reflexivity. Qed.

(** C1 (amended).  For every year and every optional sport other than the
    empty string, [calculate_team_stats] returns exactly the rows of
    [computeTeamStats_spec]: one row per team of the rows of the Summer
    season, of the year and (when a sport is given) of the sport, with the
    number of rows of the team, the number of its rows of sex F and the
    quotient of the two times 100.  With the empty string as the sport it
    returns what it returns with no sport. *)
Theorem calculate_team_stats_refines_spec
  (df : DataFrame) (year0 : Z) (sport0 : option string) :
  sport0 <> Some "" ->
  Permutation (calculate_team_stats df year0 sport0)
              (computeTeamStats_spec df year0 sport0)
  /\ calculate_team_stats df year0 (Some "") = calculate_team_stats df year0 None.
Proof.
  intro N. split; [|apply calculate_team_stats_empty_sport].
  unfold computeTeamStats_spec. cbv zeta.
  rewrite (filter_ext _ _ (fun r => matches_spec_selected year0 sport0 r N)).
  apply calculate_team_stats_teams_once.
Qed.

(** C9.  Every row of the aggregate has [total_athletes >= 1] and
    [female_athletes <= total_athletes], and its [female_percentage] is the
    value of a division by a non-zero total. *)
Theorem team_stats_total_positive
  (df : DataFrame) (year0 : Z) (sport0 : option string) (row : TeamStats) :
  In row (calculate_team_stats df year0 sport0) ->
  1 <= total_athletes row
  /\ female_athletes row <= total_athletes row
  /\ exists q, true_div (female_athletes row) (total_athletes row) = Some q
            /\ female_percentage row = Some (q * 100)%Q.
Proof.
  intro I. apply In_calculate_team_stats in I. destruct I as (t & It & ->).
  pose proof (team_row_present _ _ It) as P.
  split; [exact P|]. split; [apply team_row_counts|].
  simpl in *. destruct (List.length (filter (fun r => (team r =? t)%string) _));
    [lia|]. eexists. split; reflexivity.
Qed.

Lemma sum_bool_le (m : list bool) : sum_bool m <= List.length m.
Proof. induction m as [|[] m IH]; simpl; lia. Qed.

Lemma agg_counts (g : string * list AthleteRecord) :
  agg_female_athletes (agg g) <= agg_total_athletes (agg g)
  /\ agg_total_athletes (agg g) = List.length (snd g).
Proof.
  unfold agg, count, series_eq, column; simpl. split.
  - rewrite <- (length_map (fun x => (x =? "F")%string) (map sex (snd g))).
    apply sum_bool_le.
  - apply length_map.
Qed.

Lemma female_and_others (gs : list (string * list AthleteRecord)) :
  let stats := map (fun g => assign_female_percentage (agg g)) gs in
  list_sum (map female_athletes stats)
  + list_sum (map (fun t => total_athletes t - female_athletes t) stats)
  = rows_in gs.
Proof.
  unfold rows_in. induction gs as [|g gs IH]; simpl; [reflexivity|].
  simpl in IH. destruct (agg_counts g) as [L E].
  unfold agg in L, E. simpl in L, E. lia.
Qed.

Lemma keyed_by_team (rows : DataFrame) : filter (keyed by_team) rows = rows.
Proof.
  induction rows as [|r rows IH]; simpl; [reflexivity|]. rewrite IH. reflexivity.
Qed.

Lemma team_stats_cover_selected_rows
  (df : DataFrame) (year0 : Z) (sport0 : option string) :
  let stats := calculate_team_stats df year0 sport0 in
  list_sum (map female_athletes stats)
  + list_sum (map (fun t => total_athletes t - female_athletes t) stats)
  = List.length (filter (matches year0 sport0) df).
Proof.
  cbv zeta. rewrite calculate_team_stats_groups.
  rewrite (female_and_others (groupby by_team (filter (matches year0 sport0) df))).
  rewrite groupby_rows, keyed_by_team. reflexivity.
Qed.

(** C3 (amended).  For every year and every optional sport other than the
    empty string, the female counts of all teams plus the counts of the others
    of all teams add up to the number of rows of the table that are of the
    Summer season, of the year and (when a sport is given) of the sport.  With
    the empty string as the sport they add up to the number of the rows of
    the Summer season and of the year, of every sport. *)
Theorem team_stats_cover_matching_rows
  (df : DataFrame) (year0 : Z) (sport0 : option string) :
  sport0 <> Some "" ->
  (let stats := calculate_team_stats df year0 sport0 in
   list_sum (map female_athletes stats)
   + list_sum (map (fun t => total_athletes t - female_athletes t) stats)
   = List.length (filter (matches_spec year0 sport0) df))
  /\ (let stats := calculate_team_stats df year0 (Some "") in
      list_sum (map female_athletes stats)
      + list_sum (map (fun t => total_athletes t - female_athletes t) stats)
      = List.length (filter (matches_spec year0 None) df)).
Proof.
  intro N. cbv zeta. split.
  - rewrite (filter_ext _ _ (fun r => matches_spec_selected year0 sport0 r N)).
    apply team_stats_cover_selected_rows.
  - rewrite calculate_team_stats_empty_sport.
    apply (team_stats_cover_selected_rows df year0 None).
Qed.

Lemma percentage_bounds (f t : nat) :
  f <= t -> 1 <= t ->
  (0 <= inject_Z (Z.of_nat f) / inject_Z (Z.of_nat t) * 100
   /\ inject_Z (Z.of_nat f) / inject_Z (Z.of_nat t) * 100 <= 100)%Q.
Proof.
  intros Hf Ht.
  assert (Pt : (0 < inject_Z (Z.of_nat t))%Q)
    by (rewrite <- (Zlt_Qlt 0); lia).
  assert (P0 : (0 <= inject_Z (Z.of_nat f) / inject_Z (Z.of_nat t))%Q).
  { apply Qle_shift_div_l; [exact Pt|]. rewrite Qmult_0_l.
    rewrite <- (Zle_Qle 0). lia. }
  assert (P1 : (inject_Z (Z.of_nat f) / inject_Z (Z.of_nat t) <= 1)%Q).
  { apply Qle_shift_div_r; [exact Pt|]. rewrite Qmult_1_l.
    rewrite <- Zle_Qle. lia. }
  split.
  - apply Qmult_le_0_compat; [exact P0|discriminate].
  - setoid_replace 100%Q with (1 * 100)%Q at 2 by reflexivity.
    apply Qmult_le_compat_r; [exact P1|discriminate].
Qed.

(** C4.  In every row of the aggregate [female_percentage] lies between 0
    and 100, or has no value and then [total_athletes] is 0. *)
Theorem female_percentage_in_range
  (df : DataFrame) (year0 : Z) (sport0 : option string) (row : TeamStats) :
  In row (calculate_team_stats df year0 sport0) ->
  match female_percentage row with
  | Some p => (0 <= p /\ p <= 100)%Q
  | None => total_athletes row = 0
  end.
Proof.
  intro I. apply In_calculate_team_stats in I. destruct I as (t & It & ->).
  pose proof (team_row_counts (filter (matches year0 sport0) df) t) as L.
  simpl in *.
  destruct (List.length (filter (fun r => (team r =? t)%string) _)) eqn:E;
    [reflexivity|].
  apply percentage_bounds; lia.
Qed.

(** ** Counts per group *)

Section Counts.
Context {R K : Type} `{KeyOrderLaws K}.
Implicit Types (key : R -> option K) (rows : list R) (c : CountRow K).

Lemma In_size_reset_index key rows c :
  In c (size_reset_index (groupby key rows))
  <-> count_of c = List.length (filter (has_key key (key_of c)) rows)
      /\ 1 <= count_of c.
Proof.
  unfold size_reset_index. rewrite in_map_iff. split.
  - intros ([k rs] & <- & I). simpl. apply groupby_In in I.
    destruct I as [-> Hne]. split; [reflexivity|].
    destruct (filter _ rows); [congruence|simpl; lia].
  - intros [E L]. destruct c as [k n]. simpl in *.
    exists (k, filter (has_key key k) rows). simpl. split; [congruence|].
    apply groupby_In. split; [reflexivity|]. intro Z. rewrite Z in E.
    simpl in E. lia.
Qed.

Lemma size_reset_index_total key rows :
  list_sum (map count_of (size_reset_index (groupby key rows)))
  = List.length (filter (keyed key) rows).
Proof.
  rewrite <- groupby_rows. unfold size_reset_index, rows_in.
  rewrite map_map. reflexivity.
Qed.

Lemma size_reset_index_keys key rows :
  StronglySorted klt (map key_of (size_reset_index (groupby key rows))).
Proof.
  unfold size_reset_index. rewrite map_map. simpl.
  apply (groupby_sorted key rows).
Qed.
End Counts.

(** ** The selections of the line chart and of the sunburst *)

Lemma if_str_filter (v : option string) (c : AthleteRecord -> string) (df : DataFrame) :
  if_str v (fun s => getitem df (series_eq String.eqb (column c df) s)) df
  = filter (selected_by v c) df.
Proof.
  unfold selected_by, given, if_str. destruct v as [s|].
  - destruct (s =? "")%string.
    + induction df as [|r df IH]; simpl; [reflexivity|]. rewrite <- IH. reflexivity.
    + apply getitem_series_eq.
  - induction df as [|r df IH]; simpl; [reflexivity|]. rewrite <- IH. reflexivity.
Qed.

Lemma line_filtered_filter (df : DataFrame) (hovered_team selected_sport : option string) :
  line_filtered df hovered_team selected_sport
  = filter (in_line_chart hovered_team selected_sport) df.
Proof.
  unfold line_filtered. rewrite getitem_series_eq.
  rewrite (if_str_filter hovered_team team), (if_str_filter selected_sport sport).
  rewrite !filter_filter. apply filter_ext. intro r.
  unfold in_line_chart. rewrite andb_assoc. reflexivity.
Qed.

Lemma sunburst_filtered_filter (df : DataFrame) (hovered_team : option string)
  (selected_year : Z) (selected_sport : option string) :
  sunburst_filtered df hovered_team selected_year selected_sport
  = filter (in_sunburst hovered_team selected_year selected_sport) df.
Proof.
  unfold sunburst_filtered. rewrite getitem_mask_and.
  rewrite (if_str_filter hovered_team team), (if_str_filter selected_sport sport).
  rewrite !filter_filter. apply filter_ext. intro r.
  unfold in_sunburst, matches, selected_by.
  destruct (year r =? selected_year)%Z, (season r =? "Summer")%string,
    (given hovered_team), (given selected_sport); simpl;
    try reflexivity; try (rewrite ?andb_true_r; reflexivity);
    try apply andb_comm.
Qed.

Lemma has_key_sex_medal (k : string * string) (r : AthleteRecord) :
  has_key sex_medal k r = true <-> sex r = fst k /\ medal r = Some (snd k).
Proof.
  unfold has_key, sex_medal. destruct (medal r) as [m|].
  - rewrite keqb_eq. destruct k as [a b]. simpl.
    split; [intro E; inversion E; auto|intros [-> E]; congruence].
  - split; [discriminate|intros [_ E]; discriminate].
Qed.

Lemma has_key_year_sex (k : Z * string) (r : AthleteRecord) :
  has_key (fun r => Some (year r, sex r)) k r
  = (year r =? fst k)%Z && (sex r =? snd k)%string.
Proof.
  unfold has_key. destruct k as [a b]. simpl.
  destruct ((year r =? a)%Z && (sex r =? b)%string) eqn:E.
  - apply andb_prop in E. destruct E as [E1 E2].
    apply Z.eqb_eq in E1. apply String.eqb_eq in E2. subst.
    apply (keqb_refl (year r, sex r)).
  - destruct (keqb (a, b) (year r, sex r)) eqn:E'; [|reflexivity].
    apply keqb_eq in E'. inversion E'; subst.
    rewrite Z.eqb_refl, String.eqb_refl in E. discriminate.
Qed.

Lemma has_key_sex_medal_eq (k : string * string) (r : AthleteRecord) :
  has_key sex_medal k r = (sex r =? fst k)%string && medal_is (snd k) r.
Proof.
  destruct ((sex r =? fst k)%string && medal_is (snd k) r) eqn:E.
  - apply has_key_sex_medal. apply andb_prop in E. destruct E as [E1 E2].
    apply String.eqb_eq in E1. unfold medal_is in E2.
    destruct (medal r) as [m|]; [|discriminate].
    apply String.eqb_eq in E2. subst. auto.
  - destruct (has_key sex_medal k r) eqn:E'; [|reflexivity].
    apply has_key_sex_medal in E'. destruct E' as [E1 E2].
    unfold medal_is in E. rewrite E1, E2, !String.eqb_refl in E. discriminate.
Qed.

Lemma medal_counts_row (df : DataFrame) (ht : option string) (y0 : Z)
  (s : option string) (c : CountRow (string * string)) :
  In c (medal_counts df ht y0 s)
  <-> count_of c
      = List.length
          (filter (fun r => in_sunburst ht y0 s r
                            && ((sex r =? fst (key_of c))%string
                                && medal_is (snd (key_of c)) r)) df)
      /\ 1 <= count_of c.
Proof.
  unfold medal_counts. rewrite In_size_reset_index, sunburst_filtered_filter.
  rewrite filter_filter.
  rewrite (filter_ext _ (fun r => in_sunburst ht y0 s r
                                  && ((sex r =? fst (key_of c))%string
                                      && medal_is (snd (key_of c)) r))).
  - reflexivity.
  - intro r. rewrite has_key_sex_medal_eq. reflexivity.
Qed.

Lemma medal_counts_total (df : DataFrame) (ht : option string) (y0 : Z)
  (s : option string) :
  list_sum (map count_of (medal_counts df ht y0 s))
  = List.length (filter (fun r => in_sunburst ht y0 s r && has_medal r) df).
Proof.
  unfold medal_counts. rewrite size_reset_index_total, sunburst_filtered_filter.
  rewrite filter_filter. f_equal. apply filter_ext. intro r.
  unfold keyed, sex_medal, has_medal. destruct (medal r); reflexivity.
Qed.

Lemma update_sunburst_counts
  (df : DataFrame) (hover_data : HoverData) (selected_year : Z)
  (selected_sport hovered_team : option string) :
  sunburst_hovered_team hover_data = Ok hovered_team ->
  exists fig,
    update_sunburst df hover_data selected_year selected_sport = Ok fig
    /\ (forall c,
          In c (sunburst_data fig)
          <-> count_of c
              = List.length
                  (filter (fun r =>
                             in_sunburst hovered_team selected_year selected_sport r
                             && ((sex r =? fst (key_of c))%string
                                 && medal_is (snd (key_of c)) r)) df)
              /\ 1 <= count_of c)
    /\ list_sum (map count_of (sunburst_data fig))
       = List.length
           (filter (fun r =>
                      in_sunburst hovered_team selected_year selected_sport r
                      && has_medal r) df).
Proof.
  intro Hh. unfold update_sunburst. rewrite Hh. simpl.
  eexists. split; [reflexivity|]. simpl. split.
  - intro c. apply medal_counts_row.
  - apply medal_counts_total.
Qed.

(** C10.  The sunburst counts only rows with a medal: each of its rows
    [(sex, medal, count)] counts the selected rows of that sex that won that
    medal, and the counts add up to the number of selected rows that have a
    medal; a selected row without a medal is in no count. *)
Theorem sunburst_counts_medal_rows_only
  (df : DataFrame) (hover_data : HoverData) (selected_year : Z)
  (selected_sport hovered_team : option string) :
  sunburst_hovered_team hover_data = Ok hovered_team ->
  exists fig,
    update_sunburst df hover_data selected_year selected_sport = Ok fig
    /\ (forall c,
          In c (sunburst_data fig)
          <-> count_of c
              = List.length
                  (filter (fun r =>
                             in_sunburst hovered_team selected_year selected_sport r
                             && ((sex r =? fst (key_of c))%string
                                 && medal_is (snd (key_of c)) r)) df)
              /\ 1 <= count_of c)
    /\ list_sum (map count_of (sunburst_data fig))
       = List.length
           (filter (fun r =>
                      in_sunburst hovered_team selected_year selected_sport r
                      && has_medal r) df).
Proof. apply update_sunburst_counts. Qed.

(** ** The series of the line chart *)

Lemma combine_map {A B C : Type} (f : A -> B) (g : A -> C) (l : list A) :
  combine (map f l) (map g l) = map (fun a => (f a, g a)) l.
Proof. induction l as [|a l IH]; simpl; [reflexivity|]. rewrite IH. reflexivity. Qed.

Lemma gender_trace_points (counts : list (CountRow (Z * string)))
  (gender colour : string) (yr : Z) (n : nat) :
  let tr := gender_trace counts (gender, colour) in
  In (yr, n) (combine (x tr) (y tr)) <-> In (mkCount (yr, gender) n) counts.
Proof.
  cbv zeta. unfold gender_trace, column. simpl.
  rewrite combine_map, getitem_series_eq, in_map_iff. split.
  - intros ([[a b] m] & E & I). simpl in E. inversion E; subst.
    apply filter_In in I. destruct I as [I Eb]. simpl in Eb.
    apply String.eqb_eq in Eb. subst. exact I.
  - intro I. exists (mkCount (yr, gender) n). split; [reflexivity|].
    apply filter_In. split; [exact I|]. simpl. apply String.eqb_refl.
Qed.

Lemma athlete_counts_row (df : DataFrame) (ht s : option string)
  (gender : string) (yr : Z) (n : nat) :
  In (mkCount (yr, gender) n) (athlete_counts df ht s)
  <-> n = List.length (filter (line_point_rows ht s gender yr) df) /\ 1 <= n.
Proof.
  unfold athlete_counts. rewrite In_size_reset_index, line_filtered_filter.
  rewrite filter_filter. simpl.
  rewrite (filter_ext _ (line_point_rows ht s gender yr)); [reflexivity|].
  intro r. rewrite has_key_year_sex. reflexivity.
Qed.

Lemma line_series_points (df : DataFrame) (ht s : option string)
  (gender colour : string) (yr : Z) (n : nat) :
  let tr := gender_trace (athlete_counts df ht s) (gender, colour) in
  In (yr, n) (combine (x tr) (y tr))
  <-> n = List.length (filter (line_point_rows ht s gender yr) df) /\ 1 <= n.
Proof.
  cbv zeta. rewrite (gender_trace_points (athlete_counts df ht s)).
  apply athlete_counts_row.
Qed.

Lemma update_line_chart_points
  (df : DataFrame) (hover_data : HoverData) (selected_year : Z)
  (selected_sport hovered_team : option string) :
  line_hovered_team hover_data = Ok hovered_team ->
  exists female male title,
    update_line_chart df hover_data selected_year selected_sport
    = Ok {| traces := [female; male]; vline := selected_year; line_title := title |}
    /\ name female = "Female" /\ name male = "Male"
    /\ (forall yr n,
          In (yr, n) (combine (x female) (y female))
          <-> n = List.length
                    (filter (line_point_rows hovered_team selected_sport "F" yr) df)
              /\ 1 <= n)
    /\ (forall yr n,
          In (yr, n) (combine (x male) (y male))
          <-> n = List.length
                    (filter (line_point_rows hovered_team selected_sport "M" yr) df)
              /\ 1 <= n).
Proof.
  intro Hh. unfold update_line_chart. rewrite Hh. simpl.
  do 3 eexists. split; [reflexivity|].
  split; [reflexivity|]. split; [reflexivity|]. split; intros yr n.
  - apply (line_series_points df hovered_team selected_sport "F" "darkblue").
  - apply (line_series_points df hovered_team selected_sport "M" "darkred").
Qed.

(** C8 (amended).  The line chart is built from the rows of the Summer
    season, of the hovered team when there is one and of the selected sport
    when there is one.  It has exactly two series, Female then Male; the
    series of a sex has a point at a year exactly when the selected rows of
    that year have rows of that sex, and the point shows their number.  The
    vertical marker is at the selected year. *)
Theorem update_line_chart_series
  (df : DataFrame) (hover_data : HoverData) (selected_year : Z)
  (selected_sport hovered_team : option string) :
  line_hovered_team hover_data = Ok hovered_team ->
  exists female male title,
    update_line_chart df hover_data selected_year selected_sport
    = Ok {| traces := [female; male]; vline := selected_year; line_title := title |}
    /\ name female = "Female" /\ name male = "Male"
    /\ (forall yr n,
          In (yr, n) (combine (x female) (y female))
          <-> n = List.length
                    (filter (line_point_rows hovered_team selected_sport "F" yr) df)
              /\ 1 <= n)
    /\ (forall yr n,
          In (yr, n) (combine (x male) (y male))
          <-> n = List.length
                    (filter (line_point_rows hovered_team selected_sport "M" yr) df)
              /\ 1 <= n).
Proof. apply update_line_chart_points. Qed.

Lemma selected_by_team (t : string) (r : AthleteRecord) :
  t <> "" -> selected_by (Some t) team r = (team r =? t)%string.
Proof.
  intro N. unfold selected_by, given, if_str.
  destruct (t =? "")%string eqn:E; [apply String.eqb_eq in E; contradiction|].
  reflexivity.
Qed.

(** C5 (amended).  The choropleth is the same for any two hover values.  With
    the pointer over the team [t], the line chart and the sunburst show the
    aggregates of the rows of the team [t] and of no other row: a series has a
    point at a year exactly when rows of [t] of that year and sex are
    selected, with their number, and the sunburst has a count for a sex and a
    medal exactly when rows of [t] of that sex and medal are selected, with
    their number. *)
Theorem hover_restricts_line_and_sunburst
  (df : DataFrame) (hover_data : HoverData) (t : string)
  (selected_year : Z) (selected_sport : option string) :
  t <> "" ->
  line_hovered_team hover_data = Ok (Some t) ->
  sunburst_hovered_team hover_data = Ok (Some t) ->
  (forall other : HoverData,
     choropleth_map df (mkControls hover_data selected_year selected_sport)
     = choropleth_map df (mkControls other selected_year selected_sport))
  /\ (exists female male title,
        line_chart df (mkControls hover_data selected_year selected_sport)
        = Ok {| traces := [female; male]; vline := selected_year;
                line_title := title |}
        /\ (forall yr n,
              In (yr, n) (combine (x female) (y female))
              <-> n = List.length
                        (filter (fun r =>
                                   (team r =? t)%string
                                   && line_point_rows None selected_sport "F" yr r)
                                df)
                  /\ 1 <= n)
        /\ (forall yr n,
              In (yr, n) (combine (x male) (y male))
              <-> n = List.length
                        (filter (fun r =>
                                   (team r =? t)%string
                                   && line_point_rows None selected_sport "M" yr r)
                                df)
                  /\ 1 <= n))
  /\ (exists fig,
        sunburst_chart df (mkControls hover_data selected_year selected_sport) = Ok fig
        /\ forall c,
             In c (sunburst_data fig)
             <-> count_of c
                 = List.length
                     (filter (fun r =>
                                (team r =? t)%string
                                && (in_sunburst None selected_year selected_sport r
                                    && ((sex r =? fst (key_of c))%string
                                        && medal_is (snd (key_of c)) r)))
                             df)
                 /\ 1 <= count_of c).
Proof.
  intros Nt Hl Hs. split; [reflexivity|].
  assert (Line : forall gender yr r,
             line_point_rows (Some t) selected_sport gender yr r
             = (team r =? t)%string && line_point_rows None selected_sport gender yr r).
  { intros gender yr r. unfold line_point_rows, in_line_chart.
    rewrite (selected_by_team _ _ Nt). unfold selected_by at 2. simpl.
    destruct (season r =? "Summer")%string, (team r =? t)%string; reflexivity. }
  split.
  - destruct (update_line_chart_points df hover_data selected_year selected_sport _ Hl)
      as (female & male & title & E & _ & _ & Pf & Pm).
    unfold line_chart. simpl. exists female, male, title. split; [exact E|].
    split; intros yr n.
    + rewrite Pf, (filter_ext _ _ (Line "F" yr)). reflexivity.
    + rewrite Pm, (filter_ext _ _ (Line "M" yr)). reflexivity.
  - destruct (update_sunburst_counts df hover_data selected_year selected_sport _ Hs)
      as (fig & E & P & _).
    unfold sunburst_chart. simpl. exists fig. split; [exact E|].
    intro c. rewrite P.
    rewrite (filter_ext _ (fun r =>
               (team r =? t)%string
               && (in_sunburst None selected_year selected_sport r
                   && ((sex r =? fst (key_of c))%string
                       && medal_is (snd (key_of c)) r)))); [reflexivity|].
    intro r. unfold in_sunburst.
    rewrite (selected_by_team _ _ Nt). unfold selected_by. simpl.
    destruct (matches selected_year selected_sport r), (team r =? t)%string;
      reflexivity.
Qed.

(** ** A selection without rows *)

Lemma filter_nil_and {R : Type} (p q : R -> bool) (l : list R) :
  filter p l = [] -> filter (fun r => p r && q r) l = [].
Proof. intro E. rewrite <- filter_filter, E. reflexivity. Qed.

Lemma calculate_team_stats_no_rows (df : DataFrame) (year0 : Z) (sport0 : option string) :
  filter (matches year0 sport0) df = [] ->
  calculate_team_stats df year0 sport0 = [].
Proof. intro E. rewrite calculate_team_stats_groups, E. reflexivity. Qed.

(** [idxmax] on the empty aggregate raises, and [update_map] with it. *)
Lemma update_map_no_rows (df : DataFrame) (year0 : Z) (sport0 : option string) :
  filter (matches year0 sport0) df = [] ->
  update_map df year0 sport0 = Raise ValueError.
Proof.
  intro E. unfold update_map. rewrite (calculate_team_stats_no_rows _ _ _ E).
  reflexivity.
Qed.

(** C2 (amended).  When no row matches the year and the sport, the sunburst
    callback returns a chart without data and the line-chart callback returns
    its two series; the two series are empty when no Summer row of any year
    matches the hovered team and the sport. *)
Theorem no_rows_line_and_sunburst
  (df : DataFrame) (hover_data : HoverData) (selected_year : Z)
  (selected_sport line_team sunburst_team : option string) :
  filter (matches selected_year selected_sport) df = [] ->
  line_hovered_team hover_data = Ok line_team ->
  sunburst_hovered_team hover_data = Ok sunburst_team ->
  (exists fig,
     update_sunburst df hover_data selected_year selected_sport = Ok fig
     /\ sunburst_data fig = [])
  /\ (exists fig,
        update_line_chart df hover_data selected_year selected_sport = Ok fig
        /\ map name (traces fig) = ["Female"; "Male"]
        /\ (filter (in_line_chart line_team selected_sport) df = [] ->
            Forall (fun tr => x tr = [] /\ y tr = []) (traces fig))).
Proof.
  intros E Hl Hs. split.
  - unfold update_sunburst. rewrite Hs. simpl. eexists. split; [reflexivity|].
    simpl. unfold medal_counts. rewrite sunburst_filtered_filter.
    unfold in_sunburst. rewrite (filter_nil_and _ _ _ E). reflexivity.
  - unfold update_line_chart. rewrite Hl. simpl. eexists. split; [reflexivity|].
    simpl. split; [reflexivity|]. intro El.
    unfold athlete_counts. rewrite line_filtered_filter, El.
    repeat constructor.
Qed.

(** ** The program on the sample data *)

Example calculate_team_stats_london :
  calculate_team_stats london 2012 None
  = [ france_2012;
      {| ts_team := "Italy";
         total_athletes := 1;
         female_athletes := 1;
         female_percentage := Some (inject_Z 1 / inject_Z 1 * 100)%Q |} ].
Proof. reflexivity. Qed.

Example update_map_london :
  exists fig,
    update_map london 2012 None = Ok fig
    /\ locations fig = ["France"; "Italy"]
    /\ map highest_number_team (annotations fig) = ["France"]
    /\ map highest_percentage_team (annotations fig) = ["Italy"].
Proof. eexists. repeat split. Qed.

Example year_marks_london :
  year_marks london = [("1896", "1896"); ("2012", "2012")].
Proof. reflexivity. Qed.

Example medal_counts_london :
  medal_counts london None 2012 None = [mkCount ("F", "Gold") 2].
Proof. reflexivity. Qed.

Example athlete_counts_london :
  athlete_counts london (Some "France") None
  = [mkCount (2012%Z, "F") 1; mkCount (2012%Z, "M") 1].
Proof. reflexivity. Qed.

Example point_without_location_raises :
  line_hovered_team (Some [("points", [mkPoint None])]) = Raise KeyError
  /\ sunburst_hovered_team (Some [("points", [mkPoint None])]) = Raise KeyError.
Proof. split; reflexivity. Qed.

Example sunburst_without_points_raises :
  update_sunburst london (Some [("curveNumber", [])]) 2012 None = Raise KeyError
  /\ exists fig, update_line_chart london (Some [("curveNumber", [])]) 2012 None = Ok fig.
Proof. split; [reflexivity|eexists; reflexivity]. Qed.

(** ** The theorems at the sample data *)

Lemma calculate_team_stats_refines_spec_witness :
  Some "Athletics" <> Some ""
  /\ Permutation (calculate_team_stats london 2012 (Some "Athletics"))
                 (computeTeamStats_spec london 2012 (Some "Athletics"))
  /\ computeTeamStats_spec london 2012 (Some "Athletics")
     = [ {| ts_team := "France";
            total_athletes := 1;
            female_athletes := 0;
            female_percentage := Some (inject_Z 0 / inject_Z 1 * 100)%Q |} ].
Proof.
  assert (N : Some "Athletics" <> Some "") by discriminate.
  split; [exact N|]. split; [|reflexivity].
  exact (proj1 (calculate_team_stats_refines_spec london 2012 (Some "Athletics") N)).
Defined.

Lemma team_stats_cover_matching_rows_witness :
  Some "Swimming" <> Some ""
  /\ (let stats := calculate_team_stats london 2012 (Some "Swimming") in
      list_sum (map female_athletes stats)
      + list_sum (map (fun t => total_athletes t - female_athletes t) stats)
      = List.length (filter (matches_spec 2012 (Some "Swimming")) london))
  /\ List.length (filter (matches_spec 2012 (Some "Swimming")) london) = 2.
Proof.
  assert (N : Some "Swimming" <> Some "") by discriminate.
  split; [exact N|]. split; [|reflexivity].
  exact (proj1 (team_stats_cover_matching_rows london 2012 (Some "Swimming") N)).
Defined.

Lemma team_stats_total_positive_witness :
  In france_2012 (calculate_team_stats london 2012 None)
  /\ 1 <= total_athletes france_2012
  /\ female_athletes france_2012 <= total_athletes france_2012.
Proof.
  assert (I : In france_2012 (calculate_team_stats london 2012 None))
    by (left; reflexivity).
  split; [exact I|].
  destruct (team_stats_total_positive london 2012 None france_2012 I)
    as (A & B & _).
  split; [exact A|exact B].
Defined.

Lemma female_percentage_in_range_witness :
  In france_2012 (calculate_team_stats london 2012 None)
  /\ (0 <= inject_Z 1 / inject_Z 2 * 100 /\ inject_Z 1 / inject_Z 2 * 100 <= 100)%Q.
Proof.
  assert (I : In france_2012 (calculate_team_stats london 2012 None))
    by (left; reflexivity).
  split; [exact I|].
  exact (female_percentage_in_range london 2012 None france_2012 I).
Defined.

Lemma sunburst_counts_medal_rows_only_witness :
  sunburst_hovered_team (hover_over "France") = Ok (Some "France")
  /\ exists fig,
       update_sunburst london (hover_over "France") 2012 None = Ok fig
       /\ list_sum (map count_of (sunburst_data fig)) = 1.
Proof.
  split; [reflexivity|].
  destruct (sunburst_counts_medal_rows_only london (hover_over "France") 2012 None
              (Some "France") eq_refl) as (fig & E & _ & T).
  exists fig. split; [exact E|]. rewrite T. reflexivity.
Defined.

Lemma update_line_chart_series_witness :
  line_hovered_team (hover_over "France") = Ok (Some "France")
  /\ exists female male title,
       update_line_chart london (hover_over "France") 2012 (Some "Swimming")
       = Ok {| traces := [female; male]; vline := 2012; line_title := title |}
       /\ name female = "Female" /\ name male = "Male".
Proof.
  split; [reflexivity|].
  destruct (update_line_chart_series london (hover_over "France") 2012
              (Some "Swimming") (Some "France") eq_refl)
    as (f & m & t & E & Nf & Nm & _).
  exists f, m, t. auto.
Defined.

Lemma hover_restricts_line_and_sunburst_witness :
  "France" <> ""
  /\ line_hovered_team (hover_over "France") = Ok (Some "France")
  /\ sunburst_hovered_team (hover_over "France") = Ok (Some "France")
  /\ (exists female male title,
        line_chart london (mkControls (hover_over "France") 2012 None)
        = Ok {| traces := [female; male]; vline := 2012; line_title := title |}
        /\ In (2012%Z, 1) (combine (x female) (y female))
        /\ In (2012%Z, 1) (combine (x male) (y male)))
  /\ (exists fig,
        sunburst_chart london (mkControls (hover_over "France") 2012 None) = Ok fig
        /\ In (mkCount ("F", "Gold") 1) (sunburst_data fig)).
Proof.
  assert (N : "France" <> "") by discriminate.
  split; [exact N|]. split; [reflexivity|]. split; [reflexivity|].
  destruct (hover_restricts_line_and_sunburst london (hover_over "France")
              "France" 2012 None N eq_refl eq_refl)
    as (_ & (female & male & title & E & Pf & Pm) & (fig & Es & Ps)).
  split.
  - exists female, male, title. split; [exact E|]. split.
    + apply Pf. split; [reflexivity|]. apply le_n.
    + apply Pm. split; [reflexivity|]. apply le_n.
  - exists fig. split; [exact Es|]. apply Ps. split; [reflexivity|]. apply le_n.
Defined.

Lemma no_rows_line_and_sunburst_witness :
  filter (matches 1900 None) london = []
  /\ line_hovered_team (hover_over "France") = Ok (Some "France")
  /\ sunburst_hovered_team (hover_over "France") = Ok (Some "France")
  /\ exists fig,
       update_sunburst london (hover_over "France") 1900 None = Ok fig
       /\ sunburst_data fig = [].
Proof.
  split; [reflexivity|]. split; [reflexivity|]. split; [reflexivity|].
  exact (proj1 (no_rows_line_and_sunburst london (hover_over "France") 1900 None
                  (Some "France") (Some "France") eq_refl eq_refl eq_refl)).
Defined.

(** ** Where the code departs from the specification *)

(** C1, as stated, fails.  With the empty string as the sport the rows of the
    specification are those whose sport is the empty string, none in
    [london], while the code selects no sport and returns the aggregate of
    all sports. *)
Lemma empty_sport_is_no_selection :
  computeTeamStats_spec london 2012 (Some "") = []
  /\ calculate_team_stats london 2012 (Some "")
     = [ france_2012;
         {| ts_team := "Italy";
            total_athletes := 1;
            female_athletes := 1;
            female_percentage := Some (inject_Z 1 / inject_Z 1 * 100)%Q |} ]
  /\ ~ Permutation (calculate_team_stats london 2012 (Some ""))
                   (computeTeamStats_spec london 2012 (Some "")).
Proof.
  split; [reflexivity|]. split; [reflexivity|].
  intro P. apply Permutation_sym, Permutation_nil in P. discriminate P.
Qed.

(** C3, as stated, fails.  With the empty string as the sport no row of
    [london] matches the year and the sport, and the counts of the aggregate
    add up to 3. *)
Lemma empty_sport_counts_every_sport :
  List.length (filter (matches_spec 2012 (Some "")) london) = 0
  /\ (let stats := calculate_team_stats london 2012 (Some "") in
      list_sum (map female_athletes stats)
      + list_sum (map (fun t => total_athletes t - female_athletes t) stats)
      = 3).
Proof. split; reflexivity. Qed.

(** C2, as stated, fails.  No row of [london] is of the year 1900, and yet
    [update_map] raises and the series of the line chart are not empty: the
    line chart does not select by year. *)
Lemma no_rows_map_raises_line_not_empty :
  filter (matches 1900 None) london = []
  /\ update_map london 1900 None = Raise ValueError
  /\ exists fig,
       update_line_chart london None 1900 None = Ok fig
       /\ map x (traces fig) = [[2012%Z]; [1896%Z; 2012%Z]].
Proof.
  split; [reflexivity|]. split; [reflexivity|].
  eexists. split; reflexivity.
Qed.

(** C5, as stated, fails.  With the sport Swimming selected, moving the
    pointer from France to Italy changes neither the series of the line chart
    nor the counts of the sunburst. *)
Lemma hover_change_keeps_data :
  line_hovered_team (hover_over "France") <> line_hovered_team (hover_over "Italy")
  /\ (exists a b,
        line_chart london (mkControls (hover_over "France") 2012 (Some "Swimming")) = Ok a
        /\ line_chart london (mkControls (hover_over "Italy") 2012 (Some "Swimming")) = Ok b
        /\ traces a = traces b)
  /\ (exists a b,
        sunburst_chart london (mkControls (hover_over "France") 2012 (Some "Swimming")) = Ok a
        /\ sunburst_chart london (mkControls (hover_over "Italy") 2012 (Some "Swimming")) = Ok b
        /\ sunburst_data a = sunburst_data b).
Proof.
  split; [discriminate|]. split.
  - do 2 eexists. split; [reflexivity|]. split; reflexivity.
  - do 2 eexists. split; [reflexivity|]. split; reflexivity.
Qed.

(** C8, as stated, fails.  With the sport Athletics selected the Female
    series is empty, although two Summer rows of 2012 are of sex F: the
    selected sport restricts the rows as well. *)
Lemma line_chart_selects_sport :
  In (mkCount (2012%Z, "F") 2) (athlete_counts_spec london None)
  /\ athlete_counts london None (Some "Athletics") <> athlete_counts_spec london None
  /\ exists female male title,
       update_line_chart london None 2012 (Some "Athletics")
       = Ok {| traces := [female; male]; vline := 2012; line_title := title |}
       /\ x female = [] /\ y female = [].
Proof.
  split; [right; left; reflexivity|]. split; [discriminate|].
  do 3 eexists. split; [reflexivity|]. split; reflexivity.
Qed.

(** ** Filter derivation *)

Section Unique.
Context {A : Type} (eqb : A -> A -> bool).
Hypothesis eqb_eq : forall a b, eqb a b = true <-> a = b.

Lemma existsb_eqb (a : A) (l : list A) : existsb (eqb a) l = true <-> In a l.
Proof.
  rewrite existsb_exists. split.
  - intros (b & I & E). apply eqb_eq in E. subst. exact I.
  - intro I. exists a. split; [exact I|]. apply eqb_eq. reflexivity.
Qed.

Lemma unique_from_In (a : A) (s : list A) : forall seen,
  In a (unique_from eqb seen s) <-> In a s /\ ~ In a seen.
Proof.
  induction s as [|b s IH]; simpl; intro seen; [tauto|].
  destruct (existsb (eqb b) seen) eqn:E.
  - apply existsb_eqb in E. rewrite IH. split.
    + tauto.
    + intros [[->|I] N]; [contradiction|tauto].
  - assert (Nb : ~ In b seen).
    { intro I. apply existsb_eqb in I. congruence. }
    simpl. rewrite IH. simpl. split.
    + intros [->|[I N]]; [tauto|]. split; [tauto|]. intro; apply N; tauto.
    + intros [[->|I] N]; [tauto|].
      destruct (eqb b a) eqn:Eba.
      * apply eqb_eq in Eba. tauto.
      * right. split; [exact I|]. intros [->|I']; [|contradiction].
        assert (eqb a a = true) by (apply eqb_eq; reflexivity). congruence.
Qed.

Lemma unique_from_NoDup (s : list A) : forall seen,
  NoDup (unique_from eqb seen s).
Proof.
  induction s as [|b s IH]; simpl; intro seen; [constructor|].
  destruct (existsb (eqb b) seen); [apply IH|].
  constructor; [|apply IH]. rewrite unique_from_In. simpl. tauto.
Qed.

Lemma unique_In (a : A) (s : list A) : In a (unique eqb s) <-> In a s.
Proof. unfold unique. rewrite unique_from_In. simpl. tauto. Qed.

Lemma unique_NoDup (s : list A) : NoDup (unique eqb s).
Proof. apply unique_from_NoDup. Qed.
End Unique.

Lemma insert_sorted_perm (a : Z) (l : list Z) :
  Permutation (insert_sorted a l) (a :: l).
Proof.
  induction l as [|b l IH]; simpl; [reflexivity|].
  destruct (a <=? b)%Z; [reflexivity|].
  rewrite IH. apply perm_swap.
Qed.

Lemma sorted_perm (l : list Z) : Permutation (sorted l) l.
Proof.
  induction l as [|a l IH]; simpl; [reflexivity|].
  rewrite insert_sorted_perm, IH. reflexivity.
Qed.

Lemma insert_sorted_lt (a : Z) (l : list Z) :
  ~ In a l -> StronglySorted Z.lt l -> StronglySorted Z.lt (insert_sorted a l).
Proof.
  induction l as [|b l IH]; simpl; intros N S; [repeat constructor|].
  inversion S as [|? ? S' F]; subst.
  destruct (Z.leb_spec a b) as [L|L].
  - assert (Lt : (a < b)%Z) by (assert (b <> a) by tauto; lia).
    constructor; [exact S|]. constructor; [exact Lt|].
    eapply Forall_impl; [|exact F]. intros; simpl in *; lia.
  - constructor; [apply IH; tauto|].
    apply Forall_forall. intros c Ic.
    apply (Permutation_in _ (insert_sorted_perm a l)) in Ic.
    destruct Ic as [<-|Ic]; [lia|]. rewrite Forall_forall in F. auto.
Qed.

Lemma sorted_lt (l : list Z) : NoDup l -> StronglySorted Z.lt (sorted l).
Proof.
  induction l as [|a l IH]; simpl; intro N; [constructor|].
  inversion N; subst. apply insert_sorted_lt; [|auto].
  intro I. apply (Permutation_in _ (sorted_perm l)) in I. contradiction.
Qed.

Lemma str_inj (a b : Z) : str a = str b -> a = b.
Proof.
  unfold str. intro E. apply DecimalZ.to_int_inj.
  assert (P : forall z, NilZero.int_of_string (NilZero.string_of_int (Z.to_int z))
                        = Some (Z.to_int z)).
  { intro z. apply NilZero.isi; destruct z; simpl; try discriminate;
      intro Hn; inversion Hn as [Hu];
      exact (DecimalPos.Unsigned.to_uint_nonnil _ Hu). }
  pose proof (P a) as Pa. rewrite E, P in Pa. congruence.
Qed.

Lemma dict_set_fresh {V : Type} (d : list (string * V)) (k : string) (v : V) :
  ~ In k (map fst d) -> dict_set d k v = d ++ [(k, v)].
Proof.
  induction d as [|[k' v'] d IH]; simpl; intro N; [reflexivity|].
  destruct (k =? k')%string eqn:E.
  - apply String.eqb_eq in E. subst. tauto.
  - rewrite IH; [reflexivity|tauto].
Qed.

Lemma fold_dict_set (l : list Z) : forall d,
  NoDup l -> (forall a, In a l -> ~ In (str a) (map fst d)) ->
  fold_left (fun d y => dict_set d (str y) (str y)) l d
  = d ++ map (fun y => (str y, str y)) l.
Proof.
  induction l as [|a l IH]; simpl; intros d N F; [rewrite app_nil_r; reflexivity|].
  inversion N; subst. rewrite dict_set_fresh by auto. rewrite IH; auto.
  - rewrite <- app_assoc. reflexivity.
  - intros b Ib. rewrite map_app, in_app_iff. simpl.
    intros [I|[E|[]]]; [exact (F b (or_intror Ib) I)|].
    apply str_inj in E. subst. contradiction.
Qed.

Lemma year_marks_sorted (df : DataFrame) :
  year_marks df = map (fun y => (str y, str y)) (sorted (valid_years df)).
Proof.
  unfold year_marks. rewrite fold_dict_set; [reflexivity| |intros a _ []].
  apply (Permutation_NoDup (Permutation_sym (sorted_perm _))).
  apply unique_NoDup. apply Z.eqb_eq.
Qed.

Lemma fold_min (l : list Z) : forall a,
  (In (fold_left Z.min l a) (a :: l))
  /\ forall b, In b (a :: l) -> (fold_left Z.min l a <= b)%Z.
Proof.
  induction l as [|c l IH]; simpl; intro a.
  - split; [auto|]. intros b [<-|[]]. lia.
  - destruct (IH (Z.min a c)) as [I M]. split.
    + destruct I as [E|I]; [|auto]. rewrite <- E.
      destruct (Z.min_spec a c) as [[_ ->]|[_ ->]]; auto.
    + intros b Hb.
      assert (Hm : (fold_left Z.min l (Z.min a c) <= Z.min a c)%Z)
        by (apply M; left; reflexivity).
      destruct Hb as [<-|[<-|Hb]]; [lia|lia|]. apply M. right. exact Hb.
Qed.

Lemma fold_max (l : list Z) : forall a,
  (In (fold_left Z.max l a) (a :: l))
  /\ forall b, In b (a :: l) -> (b <= fold_left Z.max l a)%Z.
Proof.
  induction l as [|c l IH]; simpl; intro a.
  - split; [auto|]. intros b [<-|[]]. lia.
  - destruct (IH (Z.max a c)) as [I M]. split.
    + destruct I as [E|I]; [|auto]. rewrite <- E.
      destruct (Z.max_spec a c) as [[_ ->]|[_ ->]]; auto.
    + intros b Hb.
      assert (Hm : (Z.max a c <= fold_left Z.max l (Z.max a c))%Z)
        by (apply M; left; reflexivity).
      destruct Hb as [<-|[<-|Hb]]; [lia|lia|]. apply M. right. exact Hb.
Qed.

Lemma summer_data_In (df : DataFrame) (r : AthleteRecord) :
  In r (summer_data df) <-> In r df /\ season r = "Summer".
Proof.
  unfold summer_data. rewrite getitem_series_eq, filter_In, String.eqb_eq.
  reflexivity.
Qed.

Lemma layout_slider (df : DataFrame) (L : Layout) :
  layout df = Ok L ->
  dropdown_options L = sports_options df
  /\ slider_marks (year_slider L) = year_marks df
  /\ In (slider_min (year_slider L)) (valid_years df)
  /\ In (slider_max (year_slider L)) (valid_years df)
  /\ slider_value (year_slider L) = slider_min (year_slider L)
  /\ forall y, In y (valid_years df) ->
               (slider_min (year_slider L) <= y <= slider_max (year_slider L))%Z.
Proof.
  unfold layout, py_min, py_max.
  destruct (valid_years df) as [|a l]; simpl; [discriminate|].
  intro E. inversion E; subst; clear E. simpl.
  destruct (fold_min l a) as [Imin Mmin], (fold_max l a) as [Imax Mmax].
  repeat split; auto.
Qed.

(** C6 (amended).  The filter derivation yields the distinct sports and the
    distinct years of the Summer rows, each once.  The sports are the values
    and the labels of the dropdown options, in the order of [valid_sports].
    The marks of the slider are the years in ascending order, and its range
    goes from the smallest to the largest of the years. *)
Theorem filter_derivation (df : DataFrame) :
  (forall s, In s (valid_sports df)
             <-> exists r, In r df /\ season r = "Summer" /\ sport r = s)
  /\ NoDup (valid_sports df)
  /\ map value (sports_options df) = valid_sports df
  /\ map label (sports_options df) = valid_sports df
  /\ (forall y, In y (valid_years df)
                <-> exists r, In r df /\ season r = "Summer" /\ year r = y)
  /\ NoDup (valid_years df)
  /\ (exists years,
        year_marks df = map (fun y => (str y, str y)) years
        /\ StronglySorted Z.lt years
        /\ forall y, In y years <-> In y (valid_years df))
  /\ (forall L, layout df = Ok L ->
        dropdown_options L = sports_options df
        /\ slider_marks (year_slider L) = year_marks df
        /\ In (slider_min (year_slider L)) (valid_years df)
        /\ In (slider_max (year_slider L)) (valid_years df)
        /\ forall y, In y (valid_years df) ->
                     (slider_min (year_slider L) <= y
                      <= slider_max (year_slider L))%Z)
  /\ ((exists r, In r df /\ season r = "Summer") -> exists L, layout df = Ok L).
Proof.
  assert (Ys : forall y, In y (valid_years df)
                 <-> exists r, In r df /\ season r = "Summer" /\ year r = y).
  { intro y. unfold valid_years, column.
    rewrite (unique_In Z.eqb Z.eqb_eq), in_map_iff. split.
    - intros (r & E & I). apply summer_data_In in I. exists r. tauto.
    - intros (r & I & Se & E). exists r. rewrite summer_data_In. tauto. }
  split.
  { intro s. unfold valid_sports, column.
    rewrite (unique_In String.eqb String.eqb_eq), in_map_iff. split.
    - intros (r & E & I). apply summer_data_In in I. exists r. tauto.
    - intros (r & I & Se & E). exists r. rewrite summer_data_In. tauto. }
  split; [apply unique_NoDup, String.eqb_eq|].
  split; [unfold sports_options; rewrite map_map; apply map_id|].
  split; [unfold sports_options; rewrite map_map; apply map_id|].
  split; [exact Ys|].
  split; [apply unique_NoDup, Z.eqb_eq|].
  split.
  { exists (sorted (valid_years df)). split; [apply year_marks_sorted|].
    split; [apply sorted_lt, unique_NoDup, Z.eqb_eq|].
    intro y. split; apply Permutation_in;
      [apply sorted_perm|apply Permutation_sym, sorted_perm]. }
  split.
  { intros L E. destruct (layout_slider df L E) as (A & B & C & D & _ & F).
    auto. }
  intros (r & I & Se).
  assert (Iy : In (year r) (valid_years df)) by (apply Ys; exists r; auto).
  unfold layout, py_min, py_max.
  destruct (valid_years df); [destruct Iy|]. simpl. eexists. reflexivity.
Qed.

(** C6, as stated, fails.  The sports of the dropdown come in the order of
    their first Summer row, here Swimming before Athletics, and so do the
    years of [valid_years]. *)
Lemma sports_options_not_sorted :
  map value (sports_options london) = ["Swimming"; "Athletics"]
  /\ ~ StronglySorted klt (map value (sports_options london))
  /\ valid_years london = [2012; 1896]%Z
  /\ ~ StronglySorted Z.le (valid_years london).
Proof.
  split; [reflexivity|]. split.
  - intro S. inversion S as [|? ? _ F]; subst.
    inversion F as [|? ? L _]; subst. discriminate L.
  - split; [reflexivity|]. intro S. inversion S as [|? ? _ F]; subst.
    inversion F as [|? ? L _]; subst. compute in L. apply L. reflexivity.
Qed.

(** ** The callbacks on the store *)

Lemma nth_error_last (st : store) (o : object) :
  nth_error (st ++ [o]) (List.length st) = Some o.
Proof. rewrite nth_error_app2, Nat.sub_diag by lia. reflexivity. Qed.

Lemma nth_error_old (st ext : store) (a : nat) (o : object) :
  nth_error st a = Some o -> nth_error (st ++ ext) a = Some o.
Proof.
  intro E. rewrite nth_error_app1; [exact E|].
  apply nth_error_Some. congruence.
Qed.

Lemma set_nth_last (st : store) (o o' : object) :
  set_nth (List.length st) o' (st ++ [o]) = st ++ [o'].
Proof. induction st as [|b st IH]; simpl; [reflexivity|]. rewrite IH. reflexivity. Qed.

Lemma read_frame_at (st : store) (a : nat) (rows : DataFrame) :
  nth_error st a = Some (Frame rows) -> read_frame a st = (Ok rows, st).
Proof. intro E. unfold read_frame. rewrite E. reflexivity. Qed.

Lemma select_at (st : store) (a : nat) (c : AthleteRecord -> string) (v : string)
  (rows : DataFrame) :
  nth_error st a = Some (Frame rows) ->
  select a c v st
  = (Ok (List.length st), st ++ [Frame (filter (fun r => (c r =? v)%string) rows)]).
Proof.
  intro E. unfold select, bind_run, new. rewrite (read_frame_at _ _ _ E).
  rewrite getitem_series_eq. reflexivity.
Qed.

Lemma select_year_summer_at (st : store) (a : nat) (y : Z) (rows : DataFrame) :
  nth_error st a = Some (Frame rows) ->
  select_year_summer a y st
  = (Ok (List.length st),
     st ++ [Frame (filter (fun r => (year r =? y)%Z && (season r =? "Summer")%string)
                          rows)]).
Proof.
  intro E. unfold select_year_summer, bind_run, new. rewrite (read_frame_at _ _ _ E).
  rewrite getitem_mask_and. reflexivity.
Qed.

(** An optional selection leaves the store as it is or adds one frame; the
    frame it returns holds the selected rows. *)
Lemma if_select_at (st : store) (a : nat) (c : AthleteRecord -> string)
  (v : option string) (rows : DataFrame) :
  nth_error st a = Some (Frame rows) ->
  exists b ext,
    if_str v (fun s => select a c s) (ret a) st = (Ok b, st ++ ext)
    /\ nth_error (st ++ ext) b = Some (Frame (filter (selected_by v c) rows)).
Proof.
  intro E. unfold selected_by, given, if_str. destruct v as [s|].
  - destruct (s =? "")%string.
    + exists a, []. rewrite app_nil_r. split; [reflexivity|].
      rewrite E. do 2 f_equal. clear E.
      induction rows as [|r rows IH]; simpl; congruence.
    + exists (List.length st). eexists. rewrite (select_at _ _ c s _ E).
      split; [reflexivity|]. apply nth_error_last.
  - exists a, []. rewrite app_nil_r. split; [reflexivity|].
    rewrite E. do 2 f_equal. clear E.
    induction rows as [|r rows IH]; simpl; congruence.
Qed.

Lemma exec_calculate_team_stats_runs (st : store) (df : nat) (table : DataFrame)
  (year0 : Z) (sport0 : option string) :
  nth_error st df = Some (Frame table) ->
  exists a ext,
    exec_calculate_team_stats df year0 sport0 st = (Ok a, st ++ ext)
    /\ nth_error (st ++ ext) a
       = Some (StatsFrame (calculate_team_stats table year0 sport0)).
Proof.
  intro E. unfold exec_calculate_team_stats, bind_run.
  rewrite (select_year_summer_at _ _ year0 _ E).
  set (rows1 := filter (fun r => (year r =? year0)%Z && (season r =? "Summer")%string)
                       table).
  destruct (if_select_at (st ++ [Frame rows1]) (List.length st) sport sport0 rows1
              (nth_error_last st _)) as (b & ext & R & N).
  rewrite R, (read_frame_at _ _ _ N). unfold new, set_female_percentage.
  rewrite nth_error_last, set_nth_last. unfold ret.
  exists (List.length ((st ++ [Frame rows1]) ++ ext)).
  eexists. rewrite <- !app_assoc. split; [reflexivity|].
  rewrite !app_assoc, nth_error_last. do 2 f_equal.
  rewrite calculate_team_stats_groups, map_map. do 2 f_equal.
  unfold rows1. rewrite filter_filter. apply filter_ext. intro r.
  unfold matches, selected_by.
  rewrite (andb_comm (season r =? "Summer")%string). reflexivity.
Qed.

Lemma exec_update_map_runs (st : store) (df : nat) (table : DataFrame)
  (selected_year : Z) (selected_sport : option string) :
  nth_error st df = Some (Frame table) ->
  exists ext,
    exec_update_map df selected_year selected_sport st
    = (update_map table selected_year selected_sport, st ++ ext).
Proof.
  intro E.
  destruct (exec_calculate_team_stats_runs st df table selected_year selected_sport E)
    as (a & ext & R & N).
  exists ext. unfold exec_update_map, bind_run, read_stats, lift.
  rewrite R, N. reflexivity.
Qed.

Lemma line_filtered_selections (table : DataFrame) (ht s : option string) :
  line_filtered table ht s
  = filter (selected_by s sport)
      (filter (selected_by ht team)
         (filter (fun r => (season r =? "Summer")%string) table)).
Proof.
  unfold line_filtered. rewrite getitem_series_eq.
  rewrite (if_str_filter ht team), (if_str_filter s sport). reflexivity.
Qed.

Lemma sunburst_filtered_selections (table : DataFrame) (ht : option string)
  (y0 : Z) (s : option string) :
  sunburst_filtered table ht y0 s
  = filter (selected_by s sport)
      (filter (selected_by ht team)
         (filter (fun r => (year r =? y0)%Z && (season r =? "Summer")%string) table)).
Proof.
  unfold sunburst_filtered. rewrite getitem_mask_and.
  rewrite (if_str_filter ht team), (if_str_filter s sport). reflexivity.
Qed.

Lemma exec_update_line_chart_runs (st : store) (df : nat) (table : DataFrame)
  (hover_data : HoverData) (selected_year : Z) (selected_sport : option string) :
  nth_error st df = Some (Frame table) ->
  exists ext,
    exec_update_line_chart df hover_data selected_year selected_sport st
    = (update_line_chart table hover_data selected_year selected_sport, st ++ ext).
Proof.
  intro E. unfold exec_update_line_chart, update_line_chart, bind_run, lift.
  destruct (line_hovered_team hover_data) as [ht|e]; simpl;
    [|exists []; rewrite app_nil_r; reflexivity].
  rewrite (select_at _ _ season "Summer" _ E).
  set (rows1 := filter (fun r => (season r =? "Summer")%string) table).
  destruct (if_select_at (st ++ [Frame rows1]) (List.length st) team ht rows1
              (nth_error_last st _)) as (b & ext & R & N).
  rewrite R.
  destruct (if_select_at _ b sport selected_sport _ N) as (b' & ext' & R' & N').
  rewrite R', (read_frame_at _ _ _ N'). unfold new, read_year_sex, ret.
  rewrite nth_error_last. eexists. rewrite <- !app_assoc.
  unfold athlete_counts. rewrite line_filtered_selections. reflexivity.
Qed.

Lemma exec_update_sunburst_runs (st : store) (df : nat) (table : DataFrame)
  (hover_data : HoverData) (selected_year : Z) (selected_sport : option string) :
  nth_error st df = Some (Frame table) ->
  exists ext,
    exec_update_sunburst df hover_data selected_year selected_sport st
    = (update_sunburst table hover_data selected_year selected_sport, st ++ ext).
Proof.
  intro E. unfold exec_update_sunburst, update_sunburst, bind_run, lift.
  destruct (sunburst_hovered_team hover_data) as [ht|e]; simpl;
    [|exists []; rewrite app_nil_r; reflexivity].
  rewrite (select_year_summer_at _ _ selected_year _ E).
  set (rows1 := filter (fun r => (year r =? selected_year)%Z
                                 && (season r =? "Summer")%string) table).
  destruct (if_select_at (st ++ [Frame rows1]) (List.length st) team ht rows1
              (nth_error_last st _)) as (b & ext & R & N).
  rewrite R.
  destruct (if_select_at _ b sport selected_sport _ N) as (b' & ext' & R' & N').
  rewrite R', (read_frame_at _ _ _ N'). unfold new, read_sex_medal, ret.
  rewrite nth_error_last. eexists. rewrite <- !app_assoc.
  unfold medal_counts. rewrite sunburst_filtered_selections. reflexivity.
Qed.

(** C7.  Two calls of the aggregator in a row, with the same year and
    sport, return frames with the same rows, those of [calculate_team_stats]
    on the table; the aggregator and the three chart builders only add
    objects to the store, so that the table and every other object that was
    there stay as they were, and their results are those of the functions of
    the table and the selection alone. *)
Theorem aggregates_are_pure
  (st : store) (df : nat) (table : DataFrame) (hover_data : HoverData)
  (selected_year : Z) (selected_sport : option string) :
  nth_error st df = Some (Frame table) ->
  (exists a1 a2 ext1 ext2,
     exec_calculate_team_stats df selected_year selected_sport st
     = (Ok a1, st ++ ext1)
     /\ exec_calculate_team_stats df selected_year selected_sport (st ++ ext1)
        = (Ok a2, (st ++ ext1) ++ ext2)
     /\ nth_error ((st ++ ext1) ++ ext2) a1
        = Some (StatsFrame (calculate_team_stats table selected_year selected_sport))
     /\ nth_error ((st ++ ext1) ++ ext2) a2
        = Some (StatsFrame (calculate_team_stats table selected_year selected_sport))
     /\ nth_error ((st ++ ext1) ++ ext2) df = Some (Frame table))
  /\ (exists ext,
        exec_update_map df selected_year selected_sport st
        = (update_map table selected_year selected_sport, st ++ ext))
  /\ (exists ext,
        exec_update_line_chart df hover_data selected_year selected_sport st
        = (update_line_chart table hover_data selected_year selected_sport, st ++ ext))
  /\ (exists ext,
        exec_update_sunburst df hover_data selected_year selected_sport st
        = (update_sunburst table hover_data selected_year selected_sport, st ++ ext)).
Proof.
  intro E. split; [|split; [|split]].
  - destruct (exec_calculate_team_stats_runs st df table selected_year selected_sport E)
      as (a1 & ext1 & R1 & N1).
    pose proof (nth_error_old st ext1 df _ E) as E1.
    destruct (exec_calculate_team_stats_runs (st ++ ext1) df table selected_year
                selected_sport E1) as (a2 & ext2 & R2 & N2).
    exists a1, a2, ext1, ext2. repeat split; auto using nth_error_old.
  - apply exec_update_map_runs. exact E.
  - apply exec_update_line_chart_runs. exact E.
  - apply exec_update_sunburst_runs. exact E.
Qed.

Lemma aggregates_are_pure_witness :
  nth_error [Frame london] 0 = Some (Frame london)
  /\ exists ext,
       exec_update_map 0 2012 None [Frame london]
       = (update_map london 2012 None, [Frame london] ++ ext).
Proof.
  split; [reflexivity|].
  exact (proj1 (proj2 (aggregates_are_pure [Frame london] 0 london None 2012 None
                         eq_refl))).
Defined.

(** * Further properties of the code *)

(** ** The arg-max of the annotation *)

Lemma nth_error_snoc_inv {A : Type} (p : list A) (a : A) (j : nat) (b : A) :
  nth_error (p ++ [a]) j = Some b ->
  (j < List.length p /\ nth_error p j = Some b) \/ (j = List.length p /\ b = a).
Proof.
  intro E. destruct (Nat.lt_ge_cases j (List.length p)) as [L|L].
  - left. split; [exact L|]. rewrite nth_error_app1 in E; assumption.
  - right. rewrite nth_error_app2 in E by exact L.
    destruct (j - List.length p) as [|k] eqn:D; simpl in E.
    + split; [lia|congruence].
    + destruct k; discriminate.
Qed.

Lemma idxmax_from_first_max (s : list nat) : forall (p : list nat) (best bi : nat),
  nth_error p bi = Some best ->
  (forall j a, nth_error p j = Some a -> a <= best /\ (j < bi -> a < best)) ->
  exists m,
    nth_error (p ++ s) (idxmax_from Nat.ltb best bi (List.length p) s) = Some m
    /\ forall j a, nth_error (p ++ s) j = Some a ->
                   a <= m /\ (j < idxmax_from Nat.ltb best bi (List.length p) s -> a < m).
Proof.
  induction s as [|a s IH]; simpl; intros p best bi Eb Hp.
  - rewrite app_nil_r. exists best. auto.
  - assert (Lb : bi < List.length p) by (apply nth_error_Some; congruence).
    replace (p ++ a :: s) with ((p ++ [a]) ++ s) by (rewrite <- app_assoc; reflexivity).
    replace (S (List.length p)) with (List.length (p ++ [a]))
      by (rewrite length_app; simpl; lia).
    destruct (Nat.ltb_spec best a) as [L|L].
    + apply IH.
      * rewrite nth_error_app2, Nat.sub_diag by lia. reflexivity.
      * intros j b E. apply nth_error_snoc_inv in E.
        destruct E as [[Lj E]|[-> ->]].
        -- destruct (Hp j b E). lia.
        -- lia.
    + apply IH.
      * rewrite nth_error_app1 by exact Lb. exact Eb.
      * intros j b E. apply nth_error_snoc_inv in E.
        destruct E as [[Lj E]|[-> ->]].
        -- exact (Hp j b E).
        -- lia.
Qed.

(** [idxmax] on a column of integers: the position of the first largest
    cell. *)
Lemma idxmax_first_max (s : list nat) :
  s <> [] ->
  exists i m,
    idxmax Nat.ltb s = Ok i
    /\ nth_error s i = Some m
    /\ forall j a, nth_error s j = Some a -> a <= m /\ (j < i -> a < m).
Proof.
  destruct s as [|a s]; [congruence|]. intros _.
  destruct (idxmax_from_first_max s [a] a 0 eq_refl) as (m & E & M).
  - intros [|j] b Ej; simpl in Ej.
    + inversion Ej; subst. lia.
    + destruct j; discriminate.
  - exists (idxmax_from Nat.ltb a 0 1 s), m. simpl in *. auto.
Qed.

Lemma Qltb_lt (a b : Q) : Qltb a b = true <-> (a < b)%Q.
Proof.
  unfold Qltb. rewrite negb_true_iff. split.
  - intro E. apply Qnot_le_lt. intro L. apply Qle_bool_iff in L. congruence.
  - intro L. destruct (Qle_bool b a) eqn:E; [|reflexivity].
    apply Qle_bool_iff in E. destruct (Qlt_not_le _ _ L E).
Qed.

(** What [idxmax_skipna_from] holds of the cells [p] it has read. *)
Definition best_so_far (p : list (option Q)) (best : option (Q * nat)) : Prop :=
  match best with
  | None => forall j q, nth_error p j <> Some (Some q)
  | Some (m, i) =>
      nth_error p i = Some (Some m)
      /\ forall j q, nth_error p j = Some (Some q) ->
                     (q <= m)%Q /\ (j < i -> (q < m)%Q)
  end.

Lemma idxmax_skipna_from_first_max (s : list (option Q)) :
  forall (p : list (option Q)) (best : option (Q * nat)),
    best_so_far p best ->
    best_so_far (p ++ s) (idxmax_skipna_from best (List.length p) s).
Proof.
  induction s as [|c s IH]; simpl; intros p best Hp.
  - rewrite app_nil_r. exact Hp.
  - replace (p ++ c :: s) with ((p ++ [c]) ++ s) by (rewrite <- app_assoc; reflexivity).
    replace (S (List.length p)) with (List.length (p ++ [c]))
      by (rewrite length_app; simpl; lia).
    destruct c as [q|].
    + destruct best as [[b bi]|].
      * destruct Hp as [Eb Hp].
        assert (Lb : bi < List.length p) by (apply nth_error_Some; congruence).
        destruct (Qltb b q) eqn:E; apply IH; simpl.
        -- apply Qltb_lt in E. split.
           ++ rewrite nth_error_app2, Nat.sub_diag by lia. reflexivity.
           ++ intros j r Ej. apply nth_error_snoc_inv in Ej.
              destruct Ej as [[Lj Ej]|[-> Er]].
              ** destruct (Hp j r Ej) as [Hr _]. split.
                 --- apply Qlt_le_weak. eapply Qle_lt_trans; eassumption.
                 --- intros _. eapply Qle_lt_trans; eassumption.
              ** inversion Er; subst. split; [apply Qle_refl|lia].
        -- assert (Lq : (q <= b)%Q).
           { apply Qnot_lt_le. intro L. apply Qltb_lt in L. congruence. }
           split.
           ++ rewrite nth_error_app1 by exact Lb. exact Eb.
           ++ intros j r Ej. apply nth_error_snoc_inv in Ej.
              destruct Ej as [[Lj Ej]|[-> Er]].
              ** exact (Hp j r Ej).
              ** inversion Er; subst. split; [exact Lq|lia].
      * apply IH. simpl. split.
        -- rewrite nth_error_app2, Nat.sub_diag by lia. reflexivity.
        -- intros j r Ej. apply nth_error_snoc_inv in Ej.
           destruct Ej as [[Lj Ej]|[-> Er]].
           ++ destruct (Hp j r Ej).
           ++ inversion Er; subst. split; [apply Qle_refl|lia].
    + apply IH. destruct best as [[b bi]|]; simpl in *.
      * destruct Hp as [Eb Hp].
        assert (Lb : bi < List.length p) by (apply nth_error_Some; congruence).
        split.
        -- rewrite nth_error_app1 by exact Lb. exact Eb.
        -- intros j r Ej. apply nth_error_snoc_inv in Ej.
           destruct Ej as [[Lj Ej]|[_ Er]]; [exact (Hp j r Ej)|discriminate].
      * intros j r Ej. apply nth_error_snoc_inv in Ej.
        destruct Ej as [[Lj Ej]|[_ Er]]; [exact (Hp j r Ej)|discriminate].
Qed.

(** [idxmax] on a column of floats with a value in some cell: the position of
    the first largest value. *)
Lemma idxmax_skipna_first_max (s : list (option Q)) (k : nat) (v : Q) :
  nth_error s k = Some (Some v) ->
  exists i m,
    idxmax_skipna s = Ok i
    /\ nth_error s i = Some (Some m)
    /\ forall j q, nth_error s j = Some (Some q) ->
                   (q <= m)%Q /\ (j < i -> (q < m)%Q).
Proof.
  intro Ek.
  assert (H0 : best_so_far [] None) by (intros [|j] q; discriminate).
  pose proof (idxmax_skipna_from_first_max s [] None H0) as H. simpl in H.
  unfold idxmax_skipna.
  destruct (idxmax_skipna_from None 0 s) as [[m i]|]; simpl in H.
  - exists i, m. destruct H as [E M]. auto.
  - exfalso. exact (H k v Ek).
Qed.

(** ** The choropleth *)

Lemma team_stats_teams (df : DataFrame) (year0 : Z) (sport0 : option string) :
  map ts_team (calculate_team_stats df year0 sport0)
  = map fst (groupby by_team (filter (matches year0 sport0) df)).
Proof.
  rewrite calculate_team_stats_rows. cbv zeta. rewrite map_map. simpl.
  apply map_id.
Qed.

Lemma team_stats_sorted_rows (df : DataFrame) (year0 : Z) (sport0 : option string) :
  StronglySorted klt (map ts_team (calculate_team_stats df year0 sport0))
  /\ NoDup (map ts_team (calculate_team_stats df year0 sport0)).
Proof.
  rewrite team_stats_teams. split; [apply groupby_sorted|apply groupby_NoDup].
Qed.

(** X1.  The aggregate has its rows in ascending order of team, so that no
    team has two rows. *)
Theorem team_stats_sorted_by_team
  (df : DataFrame) (year0 : Z) (sport0 : option string) :
  StronglySorted klt (map ts_team (calculate_team_stats df year0 sport0))
  /\ NoDup (map ts_team (calculate_team_stats df year0 sport0)).
Proof. apply team_stats_sorted_rows. Qed.

Lemma StronglySorted_nth {A : Type} (R : A -> A -> Prop) (l : list A) :
  StronglySorted R l ->
  forall i j a b, i < j -> nth_error l i = Some a -> nth_error l j = Some b -> R a b.
Proof.
  induction 1 as [|c l S IH F]; intros i j a b L Ei Ej.
  - destruct i; discriminate.
  - destruct j as [|j]; [lia|]. simpl in Ej. destruct i as [|i]; simpl in Ei.
    + inversion Ei; subst. rewrite Forall_forall in F. apply F.
      eapply nth_error_In. exact Ej.
    + apply (IH i j); auto. lia.
Qed.

Lemma team_stats_defined (df : DataFrame) (year0 : Z) (sport0 : option string)
  (row : TeamStats) :
  In row (calculate_team_stats df year0 sport0) -> female_percentage row <> None.
Proof.
  intro I. apply In_calculate_team_stats in I. destruct I as (t & It & ->).
  pose proof (team_row_present _ _ It) as P. simpl in *.
  destruct (List.length (filter (fun r => (team r =? t)%string) _)); [lia|discriminate].
Qed.

(** The two rows the annotation is made of: the first row with the largest
    [female_athletes] and the first row with the largest [female_percentage]. *)
Lemma choropleth_figure_annotation (stats : list TeamStats) (selected_year : Z)
  (selected_sport : option string) :
  stats <> [] ->
  (forall row, In row stats -> female_percentage row <> None) ->
  exists i j max_female max_female_percentage fig,
    choropleth_figure stats selected_year selected_sport = Ok fig
    /\ nth_error stats i = Some max_female
    /\ nth_error stats j = Some max_female_percentage
    /\ (forall k row, nth_error stats k = Some row ->
          female_athletes row <= female_athletes max_female
          /\ (k < i -> female_athletes row < female_athletes max_female))
    /\ (forall k row q, nth_error stats k = Some row ->
          female_percentage row = Some q ->
          exists m, female_percentage max_female_percentage = Some m
                    /\ (q <= m)%Q /\ (k < j -> (q < m)%Q))
    /\ locations fig = map ts_team stats
    /\ color fig = map female_percentage stats
    /\ customdata fig = map female_athletes stats
    /\ annotations fig
       = [ {| highest_percentage_team := ts_team max_female_percentage;
              highest_percentage := female_percentage max_female_percentage;
              highest_number_team := ts_team max_female;
              highest_number := female_athletes max_female;
              annotation_x := ts_team max_female |} ].
Proof.
  intros Ne Def.
  assert (Nf : column female_athletes stats <> [])
    by (destruct stats; [congruence|discriminate]).
  destruct (idxmax_first_max _ Nf) as (i & m & Ei & Ni & Mi).
  unfold column in Ni. rewrite nth_error_map in Ni.
  destruct (nth_error stats i) as [mf|] eqn:Emf; [|discriminate].
  simpl in Ni. inversion Ni; subst m; clear Ni.
  assert (Hv : exists v, nth_error (column female_percentage stats) 0 = Some (Some v)).
  { destruct stats as [|r0 rest]; [congruence|]. simpl.
    destruct (female_percentage r0) as [v|] eqn:E0; [eauto|].
    destruct (Def r0 (or_introl eq_refl) E0). }
  destruct Hv as (v & Ev).
  destruct (idxmax_skipna_first_max _ _ _ Ev) as (j & mq & Ej & Nj & Mj).
  unfold column in Nj. rewrite nth_error_map in Nj.
  destruct (nth_error stats j) as [mp|] eqn:Emp; [|discriminate].
  simpl in Nj. inversion Nj as [Epct]; clear Nj.
  exists i, j, mf, mp. eexists.
  unfold choropleth_figure. rewrite Ei. simpl. unfold loc at 1. rewrite Emf. simpl.
  rewrite Ej. simpl. unfold loc. rewrite Emp. simpl.
  split; [reflexivity|]. split; [reflexivity|]. split; [reflexivity|].
  split.
  { intros k row Ek. apply (Mi k). unfold column. rewrite nth_error_map, Ek.
    reflexivity. }
  split.
  { intros k row q Ek Eq. exists mq. split; [exact Epct|].
    apply (Mj k). unfold column. rewrite nth_error_map, Ek. simpl. congruence. }
  repeat split.
Qed.

Lemma team_stats_nonempty (df : DataFrame) (year0 : Z) (sport0 : option string) :
  filter (matches year0 sport0) df <> [] ->
  calculate_team_stats df year0 sport0 <> [].
Proof.
  intros Ne E. destruct (filter (matches year0 sport0) df) as [|r rows] eqn:F;
    [congruence|].
  assert (I : In (team_row (r :: rows) (team r))
                 (calculate_team_stats df year0 sport0)).
  { apply In_calculate_team_stats. rewrite F. exists (team r).
    split; [left; reflexivity|reflexivity]. }
  rewrite E in I. destruct I.
Qed.

(** X2.  [update_map] returns a figure exactly when some row matches the year
    and the sport, and raises [ValueError] otherwise; the figure has one
    location, one colour and one custom datum per row of the aggregate. *)
Theorem update_map_succeeds_iff
  (df : DataFrame) (selected_year : Z) (selected_sport : option string) :
  match update_map df selected_year selected_sport with
  | Ok fig =>
      filter (matches selected_year selected_sport) df <> []
      /\ locations fig
         = map ts_team (calculate_team_stats df selected_year selected_sport)
      /\ color fig
         = map female_percentage (calculate_team_stats df selected_year selected_sport)
      /\ customdata fig
         = map female_athletes (calculate_team_stats df selected_year selected_sport)
  | Raise e =>
      e = ValueError /\ filter (matches selected_year selected_sport) df = []
  end.
Proof.
  destruct (filter (matches selected_year selected_sport) df) as [|r rows] eqn:F.
  - rewrite (update_map_no_rows _ _ _ F). auto.
  - assert (Ne : filter (matches selected_year selected_sport) df <> [])
      by (rewrite F; discriminate).
    destruct (choropleth_figure_annotation _ selected_year selected_sport
                (team_stats_nonempty df selected_year selected_sport Ne)
                (team_stats_defined df selected_year selected_sport))
      as (i & j & mf & mp & fig & E & _ & _ & _ & _ & L & C & D & _).
    unfold update_map. cbv zeta. rewrite E. split; [discriminate|auto].
Qed.

Lemma update_map_ok_annotation (df : DataFrame) (selected_year : Z)
  (selected_sport : option string) (fig : Choropleth) :
  update_map df selected_year selected_sport = Ok fig ->
  let stats := calculate_team_stats df selected_year selected_sport in
  exists i j max_female max_female_percentage,
    nth_error stats i = Some max_female
    /\ nth_error stats j = Some max_female_percentage
    /\ (forall k row, nth_error stats k = Some row ->
          female_athletes row <= female_athletes max_female
          /\ (k < i -> female_athletes row < female_athletes max_female))
    /\ (forall k row q, nth_error stats k = Some row ->
          female_percentage row = Some q ->
          exists m, female_percentage max_female_percentage = Some m
                    /\ (q <= m)%Q /\ (k < j -> (q < m)%Q))
    /\ annotations fig
       = [ {| highest_percentage_team := ts_team max_female_percentage;
              highest_percentage := female_percentage max_female_percentage;
              highest_number_team := ts_team max_female;
              highest_number := female_athletes max_female;
              annotation_x := ts_team max_female |} ].
Proof.
  intros E stats.
  assert (Ne : stats <> []).
  { intro Z. unfold update_map in E. cbv zeta in E. fold stats in E.
    rewrite Z in E. discriminate. }
  destruct (choropleth_figure_annotation _ selected_year selected_sport Ne
              (team_stats_defined df selected_year selected_sport))
    as (i & j & mf & mp & fig' & E' & Ni & Nj & Mi & Mj & _ & _ & _ & A).
  unfold update_map in E. cbv zeta in E. fold stats in E.
  rewrite E' in E. inversion E; subst fig'.
  exists i, j, mf, mp. auto.
Qed.

Lemma team_order_of_rows (df : DataFrame) (year0 : Z) (sport0 : option string)
  (i k : nat) (a b : TeamStats) :
  nth_error (calculate_team_stats df year0 sport0) i = Some a ->
  nth_error (calculate_team_stats df year0 sport0) k = Some b ->
  ~ k < i -> cmp (ts_team a) (ts_team b) <> Gt.
Proof.
  intros Ea Eb L.
  destruct (Nat.eq_dec i k) as [->|Nik].
  - assert (a = b) by congruence. subst. rewrite cmp_refl. discriminate.
  - assert (Lt : klt (ts_team a) (ts_team b)).
    { apply (StronglySorted_nth _ _
               (proj1 (team_stats_sorted_rows df year0 sport0)) i k); [lia| |];
        rewrite nth_error_map; [rewrite Ea|rewrite Eb]; reflexivity. }
    unfold klt in Lt. rewrite Lt. discriminate.
Qed.

(** X3.  The annotation of a figure of [update_map] names a team of the
    aggregate and its [female_athletes]; no team has more, and among the
    teams with as many it is the first in the order of the team names. *)
Theorem annotation_highest_number
  (df : DataFrame) (selected_year : Z) (selected_sport : option string)
  (fig : Choropleth) :
  update_map df selected_year selected_sport = Ok fig ->
  exists a,
    annotations fig = [a]
    /\ annotation_x a = highest_number_team a
    /\ (exists row,
          In row (calculate_team_stats df selected_year selected_sport)
          /\ ts_team row = highest_number_team a
          /\ female_athletes row = highest_number a)
    /\ forall row,
         In row (calculate_team_stats df selected_year selected_sport) ->
         female_athletes row <= highest_number a
         /\ (female_athletes row = highest_number a ->
             cmp (highest_number_team a) (ts_team row) <> Gt).
Proof.
  intro E.
  destruct (update_map_ok_annotation df selected_year selected_sport fig E)
    as (i & j & mf & mp & Ni & Nj & Mi & Mj & A).
  eexists. split; [exact A|]. simpl. split; [reflexivity|]. split.
  - exists mf. split; [eapply nth_error_In; exact Ni|auto].
  - intros row I. apply In_nth_error in I. destruct I as [k Ek].
    destruct (Mi k row Ek) as [Le Lt]. split; [exact Le|].
    intro Eq. apply (team_order_of_rows df selected_year selected_sport i k _ _ Ni Ek).
    intro L. specialize (Lt L). lia.
Qed.

Lemma annotation_highest_number_witness :
  (exists fig, update_map london 2012 None = Ok fig)
  /\ exists fig a,
       update_map london 2012 None = Ok fig
       /\ annotations fig = [a]
       /\ highest_number_team a = "France" /\ highest_number a = 1.
Proof.
  split; [eexists; reflexivity|].
  assert (E : update_map london 2012 None
              = Ok {| locations := ["France"; "Italy"];
                      color := map female_percentage
                                   (calculate_team_stats london 2012 None);
                      range_color := (0, 100)%Q;
                      cmid := 50%Q;
                      annotations :=
                        [ {| highest_percentage_team := "Italy";
                             highest_percentage :=
                               Some (inject_Z 1 / inject_Z 1 * 100)%Q;
                             highest_number_team := "France";
                             highest_number := 1;
                             annotation_x := "France" |} ];
                      customdata := [1; 1];
                      map_title_year := 2012;
                      map_title_sport := "All" |}) by reflexivity.
  destruct (annotation_highest_number london 2012 None _ E) as (a & A & _).
  eexists. exists a. split; [exact E|]. split; [exact A|].
  simpl in A. inversion A. split; reflexivity.
Defined.

(** X4.  The annotation names a team of the aggregate and its
    [female_percentage]; no team has a larger percentage, and among the teams
    with as large a percentage it is the first in the order of the team
    names. *)
Theorem annotation_highest_percentage
  (df : DataFrame) (selected_year : Z) (selected_sport : option string)
  (fig : Choropleth) :
  update_map df selected_year selected_sport = Ok fig ->
  exists a m,
    annotations fig = [a]
    /\ highest_percentage a = Some m
    /\ (exists row,
          In row (calculate_team_stats df selected_year selected_sport)
          /\ ts_team row = highest_percentage_team a
          /\ female_percentage row = highest_percentage a)
    /\ forall row q,
         In row (calculate_team_stats df selected_year selected_sport) ->
         female_percentage row = Some q ->
         (q <= m)%Q
         /\ ((m <= q)%Q -> cmp (highest_percentage_team a) (ts_team row) <> Gt).
Proof.
  intro E.
  destruct (update_map_ok_annotation df selected_year selected_sport fig E)
    as (i & j & mf & mp & Ni & Nj & Mi & Mj & A).
  destruct (female_percentage mp) as [m|] eqn:Em.
  2:{ destruct (team_stats_defined df selected_year selected_sport mp
                  (nth_error_In _ _ Nj) Em). }
  eexists. exists m. split; [exact A|]. simpl. split; [reflexivity|]. split.
  - exists mp. split; [eapply nth_error_In; exact Nj|auto].
  - intros row q I Eq. apply In_nth_error in I. destruct I as [k Ek].
    destruct (Mj k row q Ek Eq) as (m' & Em' & Le & Lt).
    inversion Em'; subst m'. split; [exact Le|].
    intro Ge. apply (team_order_of_rows df selected_year selected_sport j k _ _ Nj Ek).
    intro L. specialize (Lt L). exact (Qlt_not_le _ _ Lt Ge).
Qed.

Lemma annotation_highest_percentage_witness :
  (exists fig, update_map london 2012 None = Ok fig)
  /\ exists fig a,
       update_map london 2012 None = Ok fig
       /\ annotations fig = [a]
       /\ highest_percentage_team a = "Italy".
Proof.
  split; [eexists; reflexivity|].
  assert (E : update_map london 2012 None
              = Ok {| locations := ["France"; "Italy"];
                      color := map female_percentage
                                   (calculate_team_stats london 2012 None);
                      range_color := (0, 100)%Q;
                      cmid := 50%Q;
                      annotations :=
                        [ {| highest_percentage_team := "Italy";
                             highest_percentage :=
                               Some (inject_Z 1 / inject_Z 1 * 100)%Q;
                             highest_number_team := "France";
                             highest_number := 1;
                             annotation_x := "France" |} ];
                      customdata := [1; 1];
                      map_title_year := 2012;
                      map_title_sport := "All" |}) by reflexivity.
  destruct (annotation_highest_percentage london 2012 None _ E) as (a & m & A & _).
  eexists. exists a. split; [exact E|]. split; [exact A|].
  simpl in A. inversion A. reflexivity.
Defined.

(** ** What the outputs depend on *)

Lemma filter_summer_first (p : AthleteRecord -> bool) (df : DataFrame) :
  (forall r, p r = true -> (season r =? "Summer")%string = true) ->
  filter p df = filter p (summer_data df).
Proof.
  intro Hp. unfold summer_data. rewrite getitem_series_eq, filter_filter.
  apply filter_ext. intro r. destruct (p r) eqn:E.
  - rewrite (Hp r E). reflexivity.
  - symmetry. apply andb_false_r.
Qed.

Lemma matches_summer (y0 : Z) (s : option string) (r : AthleteRecord) :
  matches y0 s r = true -> (season r =? "Summer")%string = true.
Proof.
  unfold matches. intro E. apply andb_prop in E. destruct E as [E _].
  apply andb_prop in E. tauto.
Qed.

Lemma in_line_chart_summer (ht s : option string) (r : AthleteRecord) :
  in_line_chart ht s r = true -> (season r =? "Summer")%string = true.
Proof.
  unfold in_line_chart. intro E. apply andb_prop in E. destruct E as [E _].
  apply andb_prop in E. tauto.
Qed.

Lemma in_sunburst_summer (ht : option string) (y0 : Z) (s : option string)
  (r : AthleteRecord) :
  in_sunburst ht y0 s r = true -> (season r =? "Summer")%string = true.
Proof.
  unfold in_sunburst. intro E. apply andb_prop in E. destruct E as [E _].
  exact (matches_summer _ _ _ E).
Qed.

Lemma calculate_team_stats_of_summer (df : DataFrame) (y0 : Z) (s : option string) :
  calculate_team_stats df y0 s = calculate_team_stats (summer_data df) y0 s.
Proof.
  rewrite !calculate_team_stats_groups.
  rewrite (filter_summer_first _ df (matches_summer y0 s)). reflexivity.
Qed.

Lemma athlete_counts_of_summer (df : DataFrame) (ht s : option string) :
  athlete_counts df ht s = athlete_counts (summer_data df) ht s.
Proof.
  unfold athlete_counts. rewrite !line_filtered_filter.
  rewrite (filter_summer_first _ df (in_line_chart_summer ht s)). reflexivity.
Qed.

Lemma medal_counts_of_summer (df : DataFrame) (ht : option string) (y0 : Z)
  (s : option string) :
  medal_counts df ht y0 s = medal_counts (summer_data df) ht y0 s.
Proof.
  unfold medal_counts. rewrite !sunburst_filtered_filter.
  rewrite (filter_summer_first _ df (in_sunburst_summer ht y0 s)). reflexivity.
Qed.

(** X5.  Only the rows of the Summer season count: two tables with the same
    Summer rows give the same aggregate, the same three figures and the same
    layout. *)
Theorem outputs_depend_on_summer_rows_only
  (df df' : DataFrame) (hover_data : HoverData) (selected_year : Z)
  (selected_sport : option string) :
  summer_data df = summer_data df' ->
  calculate_team_stats df selected_year selected_sport
  = calculate_team_stats df' selected_year selected_sport
  /\ update_map df selected_year selected_sport
     = update_map df' selected_year selected_sport
  /\ update_line_chart df hover_data selected_year selected_sport
     = update_line_chart df' hover_data selected_year selected_sport
  /\ update_sunburst df hover_data selected_year selected_sport
     = update_sunburst df' hover_data selected_year selected_sport
  /\ layout df = layout df'.
Proof.
  intro E.
  assert (A : calculate_team_stats df selected_year selected_sport
              = calculate_team_stats df' selected_year selected_sport).
  { rewrite (calculate_team_stats_of_summer df), (calculate_team_stats_of_summer df').
    rewrite E. reflexivity. }
  split; [exact A|]. split; [unfold update_map; rewrite A; reflexivity|]. split.
  - unfold update_line_chart.
    destruct (line_hovered_team hover_data) as [ht|e]; [simpl|reflexivity].
    rewrite (athlete_counts_of_summer df), (athlete_counts_of_summer df'), E.
    reflexivity.
  - split.
    + unfold update_sunburst.
      destruct (sunburst_hovered_team hover_data) as [ht|e]; [simpl|reflexivity].
      rewrite (medal_counts_of_summer df), (medal_counts_of_summer df'), E.
      reflexivity.
    + unfold layout, sports_options, year_marks, valid_years, valid_sports.
      rewrite E. reflexivity.
Qed.

Lemma outputs_depend_on_summer_rows_only_witness :
  summer_data london = summer_data (firstn 4 london)
  /\ update_map london 2012 None = update_map (firstn 4 london) 2012 None.
Proof.
  split; [reflexivity|].
  exact (proj1 (proj2 (outputs_depend_on_summer_rows_only london (firstn 4 london)
                         None 2012 None eq_refl))).
Defined.

(** ** The order of the rows *)

Lemma Permutation_filter {A : Type} (p : A -> bool) (l l' : list A) :
  Permutation l l' -> Permutation (filter p l) (filter p l').
Proof.
  induction 1 as [|a l l' P IH|a b l|l l1 l2 P1 IH1 P2 IH2]; simpl.
  - constructor.
  - destruct (p a); [constructor|]; exact IH.
  - destruct (p a), (p b); try reflexivity. apply perm_swap.
  - eapply Permutation_trans; eassumption.
Qed.

Lemma Permutation_filter_length {A : Type} (p : A -> bool) (l l' : list A) :
  Permutation l l' -> List.length (filter p l) = List.length (filter p l').
Proof. intro P. apply Permutation_length, Permutation_filter, P. Qed.

Section RowOrder.
Context {R K : Type} `{KeyOrderLaws K}.
Implicit Types (key : R -> option K) (rows : list R).

Lemma klt_irrefl (k : K) : ~ klt k k.
Proof. unfold klt. rewrite cmp_refl. discriminate. Qed.

(** Two ascending lists of keys with the same keys are the same list. *)
Lemma sorted_keys_unique (l l' : list K) :
  StronglySorted klt l -> StronglySorted klt l' ->
  (forall k, In k l <-> In k l') -> l = l'.
Proof.
  intro S. revert l'. induction S as [|a l S IH F]; intros l' S' E.
  - destruct l' as [|b l']; [reflexivity|].
    destruct (proj2 (E b) (or_introl eq_refl)).
  - destruct S' as [|b l' S' F'].
    + destruct (proj1 (E a) (or_introl eq_refl)).
    + rewrite Forall_forall in F, F'.
      assert (Eab : a = b).
      { destruct (proj1 (E a) (or_introl eq_refl)) as [Eb|Ia]; [auto|].
        destruct (proj2 (E b) (or_introl eq_refl)) as [Ea|Ib]; [auto|].
        destruct (klt_irrefl a). exact (cmp_trans _ _ _ (F _ Ib) (F' _ Ia)). }
      subst b. f_equal. apply IH; [exact S'|]. intro k. split; intro I.
      * destruct (proj1 (E k) (or_intror I)) as [<-|I']; [|exact I'].
        destruct (klt_irrefl _ (F _ I)).
      * destruct (proj2 (E k) (or_intror I)) as [<-|I']; [|exact I'].
        destruct (klt_irrefl _ (F' _ I)).
Qed.

Lemma groupby_keys_perm key rows rows' :
  Permutation rows rows' ->
  map fst (groupby key rows) = map fst (groupby key rows').
Proof.
  intro P. apply sorted_keys_unique; try apply groupby_sorted.
  intro k. rewrite !groupby_keys. split; intros (r & I & E); exists r; split; auto.
  - eapply Permutation_in; eassumption.
  - eapply Permutation_in; [apply Permutation_sym|]; eassumption.
Qed.

Lemma size_reset_index_by_key key rows :
  size_reset_index (groupby key rows)
  = map (fun k => mkCount k (List.length (filter (has_key key k) rows)))
        (map fst (groupby key rows)).
Proof.
  unfold size_reset_index. rewrite map_map. apply map_ext_in.
  intros [k rs] I. apply groupby_In in I. destruct I as [-> _]. reflexivity.
Qed.

Lemma size_reset_index_perm key rows rows' :
  Permutation rows rows' ->
  size_reset_index (groupby key rows) = size_reset_index (groupby key rows').
Proof.
  intro P. rewrite !size_reset_index_by_key, (groupby_keys_perm key _ _ P).
  apply map_ext. intro k. f_equal. apply Permutation_filter_length, P.
Qed.
End RowOrder.

Lemma team_row_perm (rows rows' : DataFrame) (t : string) :
  Permutation rows rows' -> team_row rows t = team_row rows' t.
Proof.
  intro P. unfold team_row.
  rewrite (Permutation_filter_length _ _ _
             (Permutation_filter (fun r => (team r =? t)%string) _ _ P)).
  rewrite (Permutation_filter_length (fun r => (team r =? t)%string) _ _ P).
  reflexivity.
Qed.

Lemma calculate_team_stats_perm (df df' : DataFrame) (y0 : Z) (s : option string) :
  Permutation df df' ->
  calculate_team_stats df y0 s = calculate_team_stats df' y0 s.
Proof.
  intro P. rewrite !calculate_team_stats_rows. cbv zeta.
  pose proof (Permutation_filter (matches y0 s) _ _ P) as Pf.
  rewrite (groupby_keys_perm by_team _ _ Pf).
  apply map_ext. intro t. apply team_row_perm, Pf.
Qed.

(** X6.  The order of the rows of the table does not matter: a table with
    the same rows in another order gives the same aggregate and the same
    three figures. *)
Theorem outputs_ignore_row_order
  (df df' : DataFrame) (hover_data : HoverData) (selected_year : Z)
  (selected_sport : option string) :
  Permutation df df' ->
  calculate_team_stats df selected_year selected_sport
  = calculate_team_stats df' selected_year selected_sport
  /\ update_map df selected_year selected_sport
     = update_map df' selected_year selected_sport
  /\ update_line_chart df hover_data selected_year selected_sport
     = update_line_chart df' hover_data selected_year selected_sport
  /\ update_sunburst df hover_data selected_year selected_sport
     = update_sunburst df' hover_data selected_year selected_sport.
Proof.
  intro P.
  pose proof (calculate_team_stats_perm _ _ selected_year selected_sport P) as A.
  split; [exact A|]. split; [unfold update_map; rewrite A; reflexivity|]. split.
  - unfold update_line_chart.
    destruct (line_hovered_team hover_data) as [ht|e]; [simpl|reflexivity].
    unfold athlete_counts. rewrite !line_filtered_filter.
    rewrite (size_reset_index_perm _ _ _ (Permutation_filter _ _ _ P)). reflexivity.
  - unfold update_sunburst.
    destruct (sunburst_hovered_team hover_data) as [ht|e]; [simpl|reflexivity].
    unfold medal_counts. rewrite !sunburst_filtered_filter.
    rewrite (size_reset_index_perm _ _ _ (Permutation_filter _ _ _ P)). reflexivity.
Qed.

Lemma outputs_ignore_row_order_witness :
  Permutation london (rev london)
  /\ update_map london 2012 None = update_map (rev london) 2012 None.
Proof.
  split; [apply Permutation_rev|].
  exact (proj1 (proj2 (outputs_ignore_row_order london (rev london) None 2012 None
                         (Permutation_rev london)))).
Defined.

(** ** The hovered team *)

Lemma dict_get_present {V : Type} (d : list (string * V)) (k : string) (v : V) :
  dict_get d k = Ok v -> dict_truthy d = true /\ dict_in k d = true.
Proof.
  unfold dict_get, dict_in. induction d as [|[k' v'] d IH]; simpl; [discriminate|].
  intro E. split; [reflexivity|].
  destruct (k =? k')%string; [reflexivity|]. simpl. apply IH. exact E.
Qed.

Lemma dict_in_get {V : Type} (d : list (string * V)) (k : string) :
  dict_in k d = true -> exists v, dict_get d k = Ok v.
Proof.
  unfold dict_get, dict_in. induction d as [|[k' v'] d IH]; simpl; [discriminate|].
  destruct (k =? k')%string; simpl; [eauto|exact IH].
Qed.

Lemma dict_not_in_get {V : Type} (d : list (string * V)) (k : string) :
  dict_in k d = false -> dict_get d k = Raise KeyError.
Proof.
  unfold dict_get, dict_in. induction d as [|[k' v'] d IH]; simpl; [reflexivity|].
  destruct (k =? k')%string; simpl; [discriminate|exact IH].
Qed.

(** X7.  On a hover event that has the key ['points'], the line chart and
    the sunburst read the same hovered team: the location of the first point;
    an [IndexError] when there is no point, and a [KeyError] when the first
    point has no location. *)
Theorem hovered_team_of_points
  (d : list (string * list Point)) (points : list Point) :
  dict_get d "points" = Ok points ->
  line_hovered_team (Some d) = sunburst_hovered_team (Some d)
  /\ sunburst_hovered_team (Some d)
     = match points with
       | [] => Raise IndexError
       | p :: _ =>
           match location p with
           | Some l => Ok (Some l)
           | None => Raise KeyError
           end
       end.
Proof.
  intro E. destruct (dict_get_present _ _ _ E) as [T I].
  unfold line_hovered_team, sunburst_hovered_team, first_location, point_location.
  rewrite T, I, E. simpl. split; [reflexivity|].
  destruct points as [|p rest]; [reflexivity|]. simpl.
  destruct (location p); reflexivity.
Qed.

Lemma hovered_team_of_points_witness :
  dict_get [("points", [mkPoint (Some "France"); mkPoint (Some "Italy")])] "points"
  = Ok [mkPoint (Some "France"); mkPoint (Some "Italy")]
  /\ line_hovered_team
       (Some [("points", [mkPoint (Some "France"); mkPoint (Some "Italy")])])
     = Ok (Some "France")
  /\ sunburst_hovered_team
       (Some [("points", [mkPoint (Some "France"); mkPoint (Some "Italy")])])
     = Ok (Some "France").
Proof.
  split; [reflexivity|].
  destruct (hovered_team_of_points
              [("points", [mkPoint (Some "France"); mkPoint (Some "Italy")])]
              [mkPoint (Some "France"); mkPoint (Some "Italy")] eq_refl) as [A B].
  rewrite A, B. split; reflexivity.
Defined.

Lemma first_location_key_error (d : list (string * list Point)) :
  first_location d = Raise KeyError
  <-> dict_in "points" d = false
      \/ exists p rest, dict_get d "points" = Ok (p :: rest) /\ location p = None.
Proof.
  unfold first_location, point_location.
  destruct (dict_in "points" d) eqn:I.
  - destruct (dict_in_get _ _ I) as [pts E]. rewrite E. simpl.
    destruct pts as [|p rest]; simpl.
    + split; [discriminate|]. intros [F|(p & rest & F & _)]; discriminate.
    + destruct (location p) eqn:L; simpl.
      * split; [discriminate|].
        intros [F|(p' & rest' & F & L')]; [discriminate|].
        inversion F; subst. congruence.
      * split; [|reflexivity]. intros _. right. exists p, rest. auto.
  - rewrite (dict_not_in_get _ _ I). simpl. split; [auto|reflexivity].
Qed.

(** X8.  The [KeyError]s of the hovered team.  The line chart raises one
    exactly when the first point of the event has no location.  The sunburst
    raises one exactly when the event is a dict with keys that has no key
    ['points'] or whose first point has no location; on a dict with keys and
    without ['points'] the line chart takes no hovered team. *)
Theorem hovered_team_key_error (hover_data : HoverData) :
  (line_hovered_team hover_data = Raise KeyError
   <-> exists d p rest,
         hover_data = Some d
         /\ dict_get d "points" = Ok (p :: rest) /\ location p = None)
  /\ (sunburst_hovered_team hover_data = Raise KeyError
      <-> exists d,
            hover_data = Some d /\ d <> []
            /\ (dict_in "points" d = false
                \/ exists p rest,
                     dict_get d "points" = Ok (p :: rest) /\ location p = None))
  /\ (forall d,
        hover_data = Some d -> d <> [] -> dict_in "points" d = false ->
        line_hovered_team hover_data = Ok None
        /\ sunburst_hovered_team hover_data = Raise KeyError).
Proof.
  destruct hover_data as [d|]; unfold line_hovered_team, sunburst_hovered_team.
  - destruct d as [|e d]; cbn [dict_truthy andb].
    + split; [|split].
      * split; [discriminate|]. intros (d' & p & rest & E & G & _).
        inversion E; subst. discriminate.
      * split; [discriminate|]. intros (d' & E & N & _).
        inversion E; subst. congruence.
      * intros d' E N. inversion E; subst. congruence.
    + split; [|split].
      * destruct (dict_in "points" (e :: d)) eqn:I.
        -- rewrite first_location_key_error, I. split.
           ++ intros [F|(p & rest & G & L)]; [discriminate|].
              exists (e :: d), p, rest. auto.
           ++ intros (d' & p & rest & E & G & L). inversion E; subst.
              right. exists p, rest. auto.
        -- split; [discriminate|]. intros (d' & p & rest & E & G & _).
           inversion E; subst. rewrite (dict_not_in_get _ _ I) in G. discriminate.
      * rewrite first_location_key_error. split.
        -- intro F. exists (e :: d). split; [reflexivity|]. split; [discriminate|exact F].
        -- intros (d' & E & _ & F). inversion E; subst. exact F.
      * intros d' E _ I. inversion E; subst. rewrite I. split; [reflexivity|].
        apply first_location_key_error. left. exact I.
  - split; [|split].
    + split; [discriminate|]. intros (d & p & rest & E & _). discriminate.
    + split; [discriminate|]. intros (d & E & _). discriminate.
    + intros d E. discriminate.
Qed.

(** ** The layout without Summer rows *)

Lemma unique_nil_iff {A : Type} (eqb : A -> A -> bool) (s : list A) :
  unique eqb s = [] <-> s = [].
Proof.
  split; [|intros ->; reflexivity].
  destruct s as [|a s]; [reflexivity|]. unfold unique. simpl. discriminate.
Qed.

Lemma valid_years_nil_iff (df : DataFrame) :
  valid_years df = [] <-> summer_data df = [].
Proof.
  unfold valid_years. rewrite unique_nil_iff. unfold column.
  split; [apply map_eq_nil|intros ->; reflexivity].
Qed.

(** X9.  The layout is built exactly when the table has a row of the Summer
    season; on a table without one, [min] of the years raises [ValueError].
    The slider starts at its smallest year. *)
Theorem layout_needs_a_summer_row (df : DataFrame) :
  match layout df with
  | Ok L =>
      summer_data df <> []
      /\ slider_value (year_slider L) = slider_min (year_slider L)
      /\ (slider_min (year_slider L) <= slider_max (year_slider L))%Z
      /\ slider_step (year_slider L) = 1%Z
  | Raise e => e = ValueError /\ summer_data df = []
  end.
Proof.
  destruct (layout df) as [L|e] eqn:E.
  - destruct (layout_slider df L E) as (_ & _ & Imin & _ & V & M).
    split.
    + intro Z. apply valid_years_nil_iff in Z. rewrite Z in Imin. destruct Imin.
    + split; [exact V|]. split; [apply (M _ Imin)|].
      unfold layout, py_min, py_max in E.
      destruct (valid_years df); simpl in E; [discriminate|].
      inversion E. reflexivity.
  - unfold layout, py_min, py_max in E.
    destruct (valid_years df) as [|a l] eqn:V; simpl in E; [|discriminate].
    inversion E. split; [reflexivity|]. apply valid_years_nil_iff. exact V.
Qed.

(** ** The ends of the colour scale *)

Lemma percentage_extremes (f t : nat) :
  f <= t -> 1 <= t ->
  ((inject_Z (Z.of_nat f) / inject_Z (Z.of_nat t) * 100 == 0)%Q <-> f = 0)
  /\ ((inject_Z (Z.of_nat f) / inject_Z (Z.of_nat t) * 100 == 100)%Q <-> f = t).
Proof.
  intros Hf Ht. destruct t as [|n]; [lia|].
  unfold Qeq, Qdiv, Qmult, Qinv, inject_Z.
  rewrite (Nat2Z.inj_succ n), <- Z.add_1_r.
  destruct (Z.of_nat n + 1)%Z as [|p|p] eqn:E; try lia.
  cbn [Qnum Qden].
  split; split; intro H; nia.
Qed.

(** X10.  A team is at 0 percent exactly when it has no female athlete, and
    at 100 percent exactly when all its athletes are female. *)
Theorem female_percentage_extremes
  (df : DataFrame) (year0 : Z) (sport0 : option string) (row : TeamStats) :
  In row (calculate_team_stats df year0 sport0) ->
  exists p,
    female_percentage row = Some p
    /\ ((p == 0)%Q <-> female_athletes row = 0)
    /\ ((p == 100)%Q <-> female_athletes row = total_athletes row).
Proof.
  intro I. apply In_calculate_team_stats in I. destruct I as (t & It & ->).
  pose proof (team_row_present _ _ It) as P.
  pose proof (team_row_counts (filter (matches year0 sport0) df) t) as L.
  simpl in *.
  destruct (List.length (filter (fun r => (team r =? t)%string) _)) as [|n] eqn:E;
    [lia|].
  eexists. split; [reflexivity|]. apply percentage_extremes; lia.
Qed.

Lemma female_percentage_extremes_witness :
  In france_2012 (calculate_team_stats london 2012 None)
  /\ exists p, female_percentage france_2012 = Some p
               /\ ((p == 100)%Q <-> female_athletes france_2012 = 2).
Proof.
  assert (I : In france_2012 (calculate_team_stats london 2012 None))
    by (left; reflexivity).
  split; [exact I|].
  destruct (female_percentage_extremes london 2012 None france_2012 I)
    as (p & E & _ & H).
  exists p. split; [exact E|exact H].
Defined.

(** ** A selected sport *)

Lemma filter_length_le_impl {A : Type} (p q : A -> bool) (l : list A) :
  (forall a, p a = true -> q a = true) ->
  List.length (filter p l) <= List.length (filter q l).
Proof.
  intro H. induction l as [|a l IH]; simpl; [lia|].
  destruct (p a) eqn:E.
  - rewrite (H a E). simpl. lia.
  - destruct (q a); simpl; lia.
Qed.

Lemma matches_any_sport (y0 : Z) (s : option string) (r : AthleteRecord) :
  matches y0 s r = true -> matches y0 None r = true.
Proof.
  unfold matches. intro E. apply andb_prop in E. destruct E as [E _].
  rewrite E. reflexivity.
Qed.

(** X11.  Selecting a sport keeps a team only if it is in the aggregate of
    all sports, and never raises its counts. *)
Theorem selected_sport_lowers_counts
  (df : DataFrame) (year0 : Z) (sport0 : option string) (row : TeamStats) :
  In row (calculate_team_stats df year0 sport0) ->
  exists all_sports,
    In all_sports (calculate_team_stats df year0 None)
    /\ ts_team all_sports = ts_team row
    /\ total_athletes row <= total_athletes all_sports
    /\ female_athletes row <= female_athletes all_sports.
Proof.
  intro I. apply In_calculate_team_stats in I. destruct I as (t & It & ->).
  exists (team_row (filter (matches year0 None) df) t). split.
  - apply In_calculate_team_stats. exists t. split; [|reflexivity].
    apply in_map_iff in It. destruct It as (r & E & Ir).
    apply in_map_iff. exists r. split; [exact E|].
    apply filter_In in Ir. apply filter_In. split; [tauto|].
    apply (matches_any_sport year0 sport0). tauto.
  - split; [reflexivity|]. simpl. rewrite !filter_filter. split.
    + apply filter_length_le_impl. intros r E. apply andb_prop in E.
      destruct E as [E1 E2]. rewrite (matches_any_sport _ _ _ E1). exact E2.
    + apply filter_length_le_impl. intros r E. apply andb_prop in E.
      destruct E as [E1 E2]. apply andb_prop in E1. destruct E1 as [E0 E1].
      rewrite (matches_any_sport _ _ _ E0), E1. exact E2.
Qed.

Lemma selected_sport_lowers_counts_witness :
  In (team_row (filter (matches 2012 (Some "Swimming")) london) "France")
     (calculate_team_stats london 2012 (Some "Swimming"))
  /\ exists all_sports,
       In all_sports (calculate_team_stats london 2012 None)
       /\ ts_team all_sports = "France"
       /\ 1 <= total_athletes all_sports.
Proof.
  assert (I : In (team_row (filter (matches 2012 (Some "Swimming")) london) "France")
                 (calculate_team_stats london 2012 (Some "Swimming")))
    by (left; reflexivity).
  split; [exact I|].
  destruct (selected_sport_lowers_counts london 2012 (Some "Swimming") _ I)
    as (a & Ia & Et & Lt & _).
  exists a. split; [exact Ia|]. split; [exact Et|exact Lt].
Defined.

(** ** The series of the line chart, in order and in total *)

Lemma StronglySorted_filter {A : Type} (R : A -> A -> Prop) (p : A -> bool)
  (l : list A) :
  StronglySorted R l -> StronglySorted R (filter p l).
Proof.
  induction 1 as [|a l S IH F]; simpl; [constructor|].
  destruct (p a); [|exact IH]. constructor; [exact IH|].
  rewrite Forall_forall in *. intros b Ib. apply filter_In in Ib. apply F. tauto.
Qed.

Lemma StronglySorted_map_in {A B : Type} (R : A -> A -> Prop) (R' : B -> B -> Prop)
  (f : A -> B) (l : list A) :
  (forall a b, In a l -> In b l -> R' (f a) (f b) -> R a b) ->
  StronglySorted R' (map f l) -> StronglySorted R l.
Proof.
  induction l as [|a l IH]; simpl; intros H S; [constructor|].
  inversion S as [|? ? S' F]; subst. constructor.
  - apply IH; [|exact S']. intros b c Ib Ic. apply H; auto.
  - rewrite Forall_forall in *. intros b Ib. apply H; auto.
    apply F. apply in_map. exact Ib.
Qed.

Lemma klt_same_sex (a b : Z) (g : string) : klt (a, g) (b, g) -> (a < b)%Z.
Proof.
  unfold klt. simpl. unfold lex_cmp. simpl.
  destruct (Z.compare_spec a b) as [E|L|L]; [|auto|discriminate].
  intro C. change (cmp g g = Lt) in C. rewrite cmp_refl in C. discriminate.
Qed.

Lemma gender_trace_sorted (df : DataFrame) (ht s : option string)
  (gc : string * string) :
  let tr := gender_trace (athlete_counts df ht s) gc in
  StronglySorted Z.lt (x tr) /\ List.length (x tr) = List.length (y tr).
Proof.
  cbv zeta. unfold gender_trace, column. simpl. rewrite getitem_series_eq.
  split; [|rewrite !length_map; reflexivity].
  set (counts := athlete_counts df ht s).
  set (same := filter (fun r => (snd (key_of r) =? fst gc)%string) counts).
  assert (S : StronglySorted (fun c c' => klt (key_of c) (key_of c')) counts).
  { apply (StronglySorted_map_in _ klt key_of); [auto|].
    apply (size_reset_index_keys (fun r => Some (year r, sex r))). }
  apply (StronglySorted_filter _ (fun r => (snd (key_of r) =? fst gc)%string)) in S.
  fold same in S.
  assert (G : forall c, In c same -> snd (key_of c) = fst gc).
  { intros c I. apply filter_In in I. apply String.eqb_eq. tauto. }
  clearbody same. clear counts.
  induction S as [|c l S IH F]; simpl; constructor.
  - apply IH. intros c' I. apply G. right. exact I.
  - rewrite Forall_forall in *. intros z Iz. apply in_map_iff in Iz.
    destruct Iz as (c' & <- & Ic'). specialize (F c' Ic').
    pose proof (G c (or_introl eq_refl)) as Gc.
    pose proof (G c' (or_intror Ic')) as Gc'.
    destruct (key_of c) as [a g], (key_of c') as [a' g']. simpl in *. subst.
    apply (klt_same_sex _ _ _ F).
Qed.

(** X12.  In each series of the line chart the years are in ascending order,
    no year comes twice, and every year has its count. *)
Theorem line_chart_years_ascending
  (df : DataFrame) (hover_data : HoverData) (selected_year : Z)
  (selected_sport : option string) (fig : LineChart) :
  update_line_chart df hover_data selected_year selected_sport = Ok fig ->
  Forall (fun tr => StronglySorted Z.lt (x tr)
                    /\ List.length (x tr) = List.length (y tr))
         (traces fig).
Proof.
  unfold update_line_chart.
  destruct (line_hovered_team hover_data) as [ht|e]; simpl; [|discriminate].
  intro E. inversion E; subst; clear E. simpl.
  repeat constructor; apply (gender_trace_sorted df ht selected_sport).
Qed.

Lemma line_chart_years_ascending_witness :
  (exists fig, update_line_chart london None 2012 None = Ok fig)
  /\ exists fig,
       update_line_chart london None 2012 None = Ok fig
       /\ Forall (fun tr => StronglySorted Z.lt (x tr)) (traces fig).
Proof.
  split; [eexists; reflexivity|].
  eexists. split; [reflexivity|].
  eapply Forall_impl;
    [|exact (line_chart_years_ascending london None 2012 None _ eq_refl)].
  intros tr [S _]. exact S.
Defined.

Section CountsWhere.
Context {R K : Type} `{KeyOrderLaws K}.
Implicit Types (key : R -> option K) (rows : list R) (P : K -> bool).

(** The number of rows in the groups whose key satisfies [P]. *)
Definition rows_where P (gs : list (K * list R)) : nat :=
  list_sum (map (fun g => if P (fst g) then List.length (snd g) else 0) gs).

Lemma insert_group_rows_where P (k : K) (r : R) (gs : list (K * list R)) :
  rows_where P (insert_group k r gs) = (if P k then 1 else 0) + rows_where P gs.
Proof.
  unfold rows_where. induction gs as [|[k1 rs] gs IH]; simpl.
  - destruct (P k); reflexivity.
  - destruct (cmp k k1) eqn:E; simpl.
    + apply cmp_eq in E. subst k1. rewrite length_app. simpl.
      destruct (P k); lia.
    + destruct (P k); simpl; lia.
    + rewrite IH. lia.
Qed.

Lemma fold_groupby_rows_where P key rows : forall gs,
  rows_where P (fold_left (groupby_step key) rows gs)
  = rows_where P gs
    + List.length (filter (fun r => match key r with
                                    | Some k => P k
                                    | None => false
                                    end) rows).
Proof.
  induction rows as [|r rows IH]; simpl; intro gs; [lia|].
  rewrite IH. unfold groupby_step.
  destruct (key r) as [k|]; [|lia].
  rewrite insert_group_rows_where. destruct (P k); simpl; lia.
Qed.

Lemma sum_counts_where P (gs : list (K * list R)) :
  list_sum (map count_of (filter (fun c => P (key_of c)) (size_reset_index gs)))
  = rows_where P gs.
Proof.
  unfold rows_where, size_reset_index.
  induction gs as [|[k rs] gs IH]; simpl; [reflexivity|].
  destruct (P k); simpl; rewrite IH; reflexivity.
Qed.

Lemma groupby_counts_where P key rows :
  list_sum (map count_of
              (filter (fun c => P (key_of c)) (size_reset_index (groupby key rows))))
  = List.length (filter (fun r => match key r with
                                  | Some k => P k
                                  | None => false
                                  end) rows).
Proof.
  rewrite sum_counts_where. apply (fold_groupby_rows_where P key rows []).
Qed.
End CountsWhere.

Lemma gender_trace_total (df : DataFrame) (ht s : option string)
  (gender colour : string) :
  list_sum (y (gender_trace (athlete_counts df ht s) (gender, colour)))
  = List.length (filter (fun r => in_line_chart ht s r && (sex r =? gender)%string) df).
Proof.
  unfold gender_trace, column. simpl. rewrite getitem_series_eq.
  unfold athlete_counts.
  rewrite (groupby_counts_where (fun k : Z * string => (snd k =? gender)%string)).
  rewrite line_filtered_filter, filter_filter. reflexivity.
Qed.

(** X13.  The counts of the Female series add up to the number of selected
    rows of sex F, those of the Male series to the number of selected rows of
    sex M: a row of another sex is in no series. *)
Theorem line_chart_series_totals
  (df : DataFrame) (hover_data : HoverData) (selected_year : Z)
  (selected_sport hovered_team : option string) :
  line_hovered_team hover_data = Ok hovered_team ->
  exists female male title,
    update_line_chart df hover_data selected_year selected_sport
    = Ok {| traces := [female; male]; vline := selected_year; line_title := title |}
    /\ list_sum (y female)
       = List.length (filter (fun r => in_line_chart hovered_team selected_sport r
                                       && (sex r =? "F")%string) df)
    /\ list_sum (y male)
       = List.length (filter (fun r => in_line_chart hovered_team selected_sport r
                                       && (sex r =? "M")%string) df).
Proof.
  intro Hh. unfold update_line_chart. rewrite Hh. simpl.
  do 3 eexists. split; [reflexivity|]. split; apply gender_trace_total.
Qed.

Lemma line_chart_series_totals_witness :
  line_hovered_team (hover_over "France") = Ok (Some "France")
  /\ exists female male title,
       update_line_chart london (hover_over "France") 2012 None
       = Ok {| traces := [female; male]; vline := 2012; line_title := title |}
       /\ list_sum (y female) = 1 /\ list_sum (y male) = 1.
Proof.
  split; [reflexivity|].
  destruct (line_chart_series_totals london (hover_over "France") 2012 None
              (Some "France") eq_refl) as (f & m & t & E & Tf & Tm).
  exists f, m, t. split; [exact E|]. rewrite Tf, Tm. split; reflexivity.
Defined.

(** ** The controls and the callbacks *)

Lemma valid_years_In (df : DataFrame) (y0 : Z) :
  In y0 (valid_years df) <-> exists r, In r df /\ season r = "Summer" /\ year r = y0.
Proof.
  unfold valid_years, column.
  rewrite (unique_In Z.eqb Z.eqb_eq), in_map_iff. split.
  - intros (r & E & I). apply summer_data_In in I. exists r. tauto.
  - intros (r & I & Se & E). exists r. rewrite summer_data_In. tauto.
Qed.

Lemma valid_sports_In (df : DataFrame) (s : string) :
  In s (valid_sports df) <-> exists r, In r df /\ season r = "Summer" /\ sport r = s.
Proof.
  unfold valid_sports, column.
  rewrite (unique_In String.eqb String.eqb_eq), in_map_iff. split.
  - intros (r & E & I). apply summer_data_In in I. exists r. tauto.
  - intros (r & I & Se & E). exists r. rewrite summer_data_In. tauto.
Qed.

Lemma matches_year (y0 : Z) (r : AthleteRecord) :
  matches y0 None r = true <-> season r = "Summer" /\ year r = y0.
Proof.
  unfold matches. simpl. rewrite andb_true_r, andb_true_iff, String.eqb_eq, Z.eqb_eq.
  reflexivity.
Qed.

(** X14.  With no sport selected, [update_map] returns a figure exactly for
    the years of [valid_years], the years the slider has marks for; at any
    other position of the slider it raises. *)
Theorem update_map_at_marked_years (df : DataFrame) (selected_year : Z) :
  (exists fig, update_map df selected_year None = Ok fig)
  <-> In selected_year (valid_years df).
Proof.
  rewrite valid_years_In. split.
  - intros (fig & E).
    destruct (filter (matches selected_year None) df) as [|r rows] eqn:F.
    + rewrite (update_map_no_rows _ _ _ F) in E. discriminate.
    + assert (I : In r (filter (matches selected_year None) df))
        by (rewrite F; left; reflexivity).
      apply filter_In in I. destruct I as [I M]. apply matches_year in M.
      exists r. tauto.
  - intros (r & I & M).
    assert (Ne : filter (matches selected_year None) df <> []).
    { intro Z. assert (Ir : In r (filter (matches selected_year None) df)).
      { apply filter_In. split; [exact I|]. apply matches_year. exact M. }
      rewrite Z in Ir. destruct Ir. }
    destruct (choropleth_figure_annotation _ selected_year None
                (team_stats_nonempty df selected_year None Ne)
                (team_stats_defined df selected_year None))
      as (i & j & mf & mp & fig & E & _).
    exists fig. exact E.
Qed.

(** X15.  Every sport of the dropdown has rows to show: with such a sport
    selected and no hovered team, the counts of the line chart are not
    empty. *)
Theorem dropdown_sport_has_counts (df : DataFrame) (o : DropdownOption) :
  In o (sports_options df) -> value o <> "" ->
  athlete_counts df None (Some (value o)) <> [].
Proof.
  intros I N. unfold sports_options in I. apply in_map_iff in I.
  destruct I as (s & <- & Is). simpl in *.
  apply valid_sports_In in Is. destruct Is as (r & Ir & Se & Sp).
  assert (Ik : In (year r, sex r)
                 (map fst (groupby (fun r => Some (year r, sex r))
                                   (line_filtered df None (Some s))))).
  { apply groupby_keys. exists r. split; [|reflexivity].
    rewrite line_filtered_filter. apply filter_In. split; [exact Ir|].
    unfold in_line_chart, selected_by, given, if_str.
    destruct (s =? "")%string eqn:E; [apply String.eqb_eq in E; contradiction|].
    simpl. rewrite Se, Sp, !String.eqb_refl. reflexivity. }
  unfold athlete_counts, size_reset_index. intro Z.
  apply map_eq_nil in Z. rewrite Z in Ik. destruct Ik.
Qed.

Lemma dropdown_sport_has_counts_witness :
  In (mkOption "Swimming" "Swimming") (sports_options london)
  /\ "Swimming" <> ""
  /\ athlete_counts london None (Some "Swimming") <> [].
Proof.
  assert (I : In (mkOption "Swimming" "Swimming") (sports_options london))
    by (left; reflexivity).
  assert (N : "Swimming" <> "") by discriminate.
  split; [exact I|]. split; [exact N|].
  exact (dropdown_sport_has_counts london (mkOption "Swimming" "Swimming") I N).
Defined.

Lemma NoDup_map_str (l : list Z) : NoDup l -> NoDup (map str l).
Proof.
  induction 1 as [|a l N S IH]; simpl; constructor; [|exact IH].
  intro I. apply in_map_iff in I. destruct I as (b & E & Ib).
  apply str_inj in E. subst. contradiction.
Qed.

(** X16.  The marks of the slider lose no year: there is one mark per year
    of [valid_years], its key and its label are the decimal writing of the
    year, and no two marks have the same key. *)
Theorem year_marks_one_per_year (df : DataFrame) :
  List.length (year_marks df) = List.length (valid_years df)
  /\ NoDup (map fst (year_marks df))
  /\ forall k v, In (k, v) (year_marks df)
                 <-> exists y0, In y0 (valid_years df) /\ k = str y0 /\ v = str y0.
Proof.
  rewrite year_marks_sorted. split.
  - rewrite length_map. apply Permutation_length, sorted_perm.
  - split.
    + rewrite map_map. simpl. apply NoDup_map_str.
      apply (Permutation_NoDup (Permutation_sym (sorted_perm _))).
      apply unique_NoDup, Z.eqb_eq.
    + intros k v. rewrite in_map_iff. split.
      * intros (y0 & E & I). inversion E; subst. exists y0.
        split; [|auto]. apply (Permutation_in _ (sorted_perm _) I).
      * intros (y0 & I & -> & ->). exists y0. split; [reflexivity|].
        apply (Permutation_in _ (Permutation_sym (sorted_perm _)) I).
Qed.

Lemma team_stats_total_rows (df : DataFrame) (y0 : Z) (s : option string) :
  list_sum (map total_athletes (calculate_team_stats df y0 s))
  = List.length (filter (matches y0 s) df).
Proof.
  rewrite calculate_team_stats_groups, map_map.
  rewrite <- (keyed_by_team (filter (matches y0 s) df)) at 2.
  rewrite <- groupby_rows. unfold rows_in. f_equal.
  apply map_ext. intro g. simpl. apply (proj2 (agg_counts g)).
Qed.

(** X17.  The sunburst never counts more than the choropleth: the counts of
    the sunburst add up to at most the sum of [total_athletes] of the
    aggregate of the same year and sport. *)
Theorem sunburst_within_aggregate
  (df : DataFrame) (hover_data : HoverData) (selected_year : Z)
  (selected_sport : option string) (fig : Sunburst) :
  update_sunburst df hover_data selected_year selected_sport = Ok fig ->
  list_sum (map count_of (sunburst_data fig))
  <= list_sum (map total_athletes
                   (calculate_team_stats df selected_year selected_sport)).
Proof.
  unfold update_sunburst.
  destruct (sunburst_hovered_team hover_data) as [ht|e]; simpl; [|discriminate].
  intro E. inversion E; subst; clear E. simpl.
  rewrite medal_counts_total, team_stats_total_rows.
  apply filter_length_le_impl. intros r M. unfold in_sunburst in M.
  apply andb_prop in M. destruct M as [M _].
  apply andb_prop in M. tauto.
Qed.

Lemma sunburst_within_aggregate_witness :
  (exists fig, update_sunburst london None 2012 None = Ok fig)
  /\ exists fig,
       update_sunburst london None 2012 None = Ok fig
       /\ list_sum (map count_of (sunburst_data fig)) <= 3.
Proof.
  split; [eexists; reflexivity|].
  eexists. split; [reflexivity|].
  exact (sunburst_within_aggregate london None 2012 None _ eq_refl).
Defined.

Lemma in_sunburst_global (ht : option string) (y0 : Z) (s : option string)
  (r : AthleteRecord) :
  in_sunburst ht y0 s r = true -> in_sunburst None y0 s r = true.
Proof.
  unfold in_sunburst. intro E. apply andb_prop in E. destruct E as [E _].
  rewrite E. reflexivity.
Qed.

(** X18.  Hovering a team only takes rows away from the sunburst: each of
    its counts is at most the count of the same sex and medal without a
    hovered team, which is in the global sunburst. *)
Theorem hover_lowers_sunburst_counts
  (df : DataFrame) (hovered_team : option string) (selected_year : Z)
  (selected_sport : option string) (c : CountRow (string * string)) :
  In c (medal_counts df hovered_team selected_year selected_sport) ->
  exists g,
    In g (medal_counts df None selected_year selected_sport)
    /\ key_of g = key_of c
    /\ count_of c <= count_of g.
Proof.
  intro I. apply medal_counts_row in I. destruct I as [E L].
  set (n := List.length
              (filter (fun r => in_sunburst None selected_year selected_sport r
                                && ((sex r =? fst (key_of c))%string
                                    && medal_is (snd (key_of c)) r)) df)).
  assert (Le : count_of c <= n).
  { rewrite E. apply filter_length_le_impl. intros r M.
    apply andb_prop in M. destruct M as [M1 M2].
    rewrite (in_sunburst_global _ _ _ _ M1). exact M2. }
  exists (mkCount (key_of c) n). split; [|split; [reflexivity|exact Le]].
  apply medal_counts_row. simpl. split; [reflexivity|lia].
Qed.

Lemma hover_lowers_sunburst_counts_witness :
  In (mkCount ("F", "Gold") 1) (medal_counts london (Some "France") 2012 None)
  /\ exists g,
       In g (medal_counts london None 2012 None)
       /\ key_of g = ("F", "Gold") /\ 1 <= count_of g.
Proof.
  assert (I : In (mkCount ("F", "Gold") 1)
                 (medal_counts london (Some "France") 2012 None))
    by (left; reflexivity).
  split; [exact I|].
  exact (hover_lowers_sunburst_counts london (Some "France") 2012 None _ I).
Defined.
